(** * ilovehere: the heart-marker service of [server.js]

    A shallow embedding of the two request handlers of [server.js]
    ([POST /api/hearts], [GET /api/hearts]) and of the reverse-geocoding
    helper [getCountryFromServerLatLng], followed by the properties the
    specification states about them.

    JavaScript values are the values [JSON.parse] can produce plus
    [undefined]; objects are finite maps from property names to values.
    Effects ([fetch], [console.error], the document store, the clock) are
    threaded through a state-and-exception monad; what the outside world
    answers (the geocoder's reply, whether the store accepts a write) is
    read from an environment record, so every theorem quantifies over all
    possible answers. The same record holds the built-ins this repository
    uses but does not define ([String.prototype.toUpperCase], the casts of
    the schema layer on values of another type). *)

From Stdlib Require Import ZArith QArith String Ascii.
From stdpp Require Import base option list gmap strings sorting.

Set Warnings "-register-all".
Local Open Scope string_scope.
Local Open Scope list_scope.
Local Open Scope Z_scope.

(** ** JavaScript values *)

(** A number is the rational a finite double stands for ([JSON.parse]
    never yields [NaN]); [0] and [-0] are the same number here. *)

Inductive value : Type :=
  | JUndefined
  | JNull
  | JBool (b : bool)
  | JNum (q : Q)
  | JStr (s : string)
  | JArr (items : list value)
  | JObj (props : gmap string value).

(** [ToBoolean]: [undefined], [null], [false], [0] and the empty string are
    falsy; every object and array is truthy. *)
Definition truthy (v : value) : bool :=
  match v with
  | JUndefined | JNull => false
  | JBool b => b
  | JNum q => negb (Qnum q =? 0)%Z
  | JStr s => negb (String.eqb s "")
  | JArr _ | JObj _ => true
  end.

(** [v === undefined] *)
Definition is_undefined (v : value) : bool :=
  match v with JUndefined => true | _ => false end.

(** [a || b] yields an operand, not a boolean. *)
Definition js_or (a b : value) : value := if truthy a then a else b.

(** Upper case of a string of ASCII characters: the letters [a]-[z] are
    mapped to [A]-[Z], every other character is kept. On such strings this
    is [String.prototype.toUpperCase]; the program itself reads the
    built-in from the environment ([upper_case] below), and this function
    serves the sample environments. *)
Definition upper_ascii (c : ascii) : ascii :=
  let n := nat_of_ascii c in
  if ((97 <=? n) && (n <=? 122))%nat then ascii_of_nat (n - 32) else c.

Fixpoint toUpperCase (s : string) : string :=
  match s with
  | EmptyString => EmptyString
  | String c s' => String (upper_ascii c) (toUpperCase s')
  end.

(** ** Errors, log lines, records *)

Inductive error : Type :=
  | JsError (msg : string)        (* new Error(msg) *)
  | JsTypeError (msg : string)    (* raised by the language itself *)
  | Rejected (msg : string).      (* rejection coming from a collaborator *)

Inductive log_arg : Type :=
  | LStr (s : string)
  | LNum (n : Z)
  | LErr (e : error).

(** The fields of [heartSchema], as JavaScript values. The record is used
    twice: for the object the handler passes to [new Heart(...)], whose
    fields are whatever the request and the geocoder supplied, and for the
    document itself, whose fields have been cast to the types of the
    schema. The identifier the store generates is left out. *)
Record Heart : Type := mkHeart {
  type : value;
  latitude : value;
  longitude : value;
  message : value;
  countryName : value;
  countryCode : string;
  timestamp : Z
}.

(** The object returned by [getCountryFromServerLatLng]. *)
Record Geo : Type := mkGeo {
  geo_countryName : value;
  geo_countryCode : string
}.

(** What [fetch] resolves to: the [ok] flag and [status] of the reply and
    what awaiting [text()] and [json()] on it gives. *)
Inductive result (A : Type) : Type :=
  | Ok (a : A)
  | Throw (e : error).
Arguments Ok {A} a.
Arguments Throw {A} e.

Record Response : Type := mkResponse {
  ok : bool;
  status : Z;
  text : result string;
  json : result value
}.

Inductive response_body : Type :=
  | RError (msg : string)          (* { error: msg } *)
  | RHeart (h : Heart)
  | RHearts (hs : list Heart).

(** [res.status(code).json(body)] *)
Record HttpResponse : Type := json_response {
  http_status : Z;
  http_body : response_body
}.

(** ** The world around one request *)

Inductive event : Type :=
  | EvFetch (lat lng : value)            (* GET nominatim .../reverse?lat=..&lon=.. *)
  | EvConsoleError (args : list log_arg)
  | EvSave (args : Heart)                (* new Heart(args).save() *)
  | EvFind.                              (* Heart.find().sort(...) *)

Record World : Type := mkWorld {
  store : list Heart;      (* the persisted collection *)
  now : Z;                 (* the server clock, in milliseconds *)
  trace : list event       (* what the process did, oldest first *)
}.

Record Env : Type := mkEnv {
  fetch_outcome : value -> value -> result Response;
  fetch_elapsed : Z;                     (* clock time spent awaiting the geocoder *)
  save_outcome : Heart -> option error;  (* [None]: the store inserts the valid document *)
  find_outcome : option error;           (* [None]: the query succeeds *)
  upper_case : string -> string;         (* String.prototype.toUpperCase *)
  cast_to_String : value -> option string; (* String cast of a value that is no string *)
  cast_to_Number : value -> option Q     (* Number cast of a value that is no number *)
}.

(** ** State and exception monad *)

Definition M (A : Type) : Type := World -> result A * World.

Definition ret {A} (a : A) : M A := fun w => (Ok a, w).
Definition throw {A} (e : error) : M A := fun w => (Throw e, w).
Definition bind {A B} (m : M A) (k : A -> M B) : M B :=
  fun w => match m w with
           | (Ok a, w') => k a w'
           | (Throw e, w') => (Throw e, w')
           end.
(** [try { body } catch (error) { handler error }] *)
Definition try_catch {A} (body : M A) (handler : error -> M A) : M A :=
  fun w => match body w with
           | (Ok a, w') => (Ok a, w')
           | (Throw e, w') => handler e w'
           end.

(** stdpp's [x ← m; k] and [m;; k] are read in this monad. *)
Global Instance M_ret : MRet M := @ret.
Global Instance M_bind : MBind M := fun A B k m => bind m k.

Definition emit (e : event) : M unit :=
  fun w => (Ok tt, mkWorld (store w) (now w) (trace w ++ [e])).
Definition lift {A} (r : result A) : M A := fun w => (r, w).

Definition console_error (args : list log_arg) : M unit :=
  emit (EvConsoleError args).

(** [new Date()] *)
Definition new_Date : M Z := fun w => (Ok (now w), w).

(** Property access [v.name] for the names this program reads ([type],
    [latitude], [longitude], [message], [address], [country],
    [country_code]); none of them exists on a built-in prototype, so on a
    primitive or an array the access yields [undefined]. *)
Definition prop_of (v : value) (name : string) : value :=
  match v with
  | JObj props => default JUndefined (props !! name)
  | _ => JUndefined
  end.

Definition get_prop (v : value) (name : string) : M value :=
  match v with
  | JUndefined | JNull =>
      throw (JsTypeError "Cannot read properties of undefined or null")
  | _ => ret (prop_of v name)
  end.

(** [v.toUpperCase()]: only strings have the method. *)
Definition call_toUpperCase (env : Env) (v : value) : M string :=
  match v with
  | JStr s => ret (upper_case env s)
  | JUndefined | JNull =>
      throw (JsTypeError "Cannot read properties of undefined or null")
  | _ => throw (JsTypeError "toUpperCase is not a function")
  end.

(** [ToString], as a template literal applies it, succeeds on every
    primitive. On an object it calls the inherited [toString] unless the
    object has an own property of that name, which for a parsed JSON value
    is never callable: then no primitive is obtained and a [TypeError] is
    thrown. On an array it joins the elements, converting each one that is
    neither [null] nor [undefined]. *)
Fixpoint to_string_ok (v : value) : bool :=
  match v with
  | JObj props => negb (bool_decide (is_Some (props !! "toString")))
  | JArr items => forallb to_string_ok items
  | _ => true
  end.

(** The URL of line 44 is fixed up to the two coordinates, which the
    template literal converts to strings, [lat] first. *)
Definition reverse_url (lat lng : value) : M unit :=
  if to_string_ok lat && to_string_ok lng then ret tt
  else throw (JsTypeError "Cannot convert object to primitive value").

(** [await fetch(url)] *)
Definition fetch (env : Env) (lat lng : value) : M Response :=
  emit (EvFetch lat lng);;
  ((fun w => (fetch_outcome env lat lng,
              mkWorld (store w) (now w + fetch_elapsed env) (trace w)))
     : M Response).

(** ** [getCountryFromServerLatLng] *)

Definition the_open_sea : Geo := mkGeo (JStr "the open sea") "XX".
Definition an_unknown_location : Geo := mkGeo (JStr "an unknown location") "XX".

Definition getCountryFromServerLatLng (env : Env) (lat lng : value) : M Geo :=
  try_catch
    (reverse_url lat lng;;
     response ← fetch env lat lng;
     (if negb (ok response) then
        body ← lift (text response);
        console_error [LStr "Nominatim API response not OK:";
                       LNum (status response); LStr body];;
        throw (JsError "Network response was not ok from Nominatim.")
      else ret tt);;
     data ← lift (json response);
     address ← (if truthy data then get_prop data "address" else ret data);
     if truthy address then
       country ← get_prop address "country";
       country_code ← get_prop address "country_code";
       code ← (if truthy country_code then call_toUpperCase env country_code
                else ret "XX");
       ret (mkGeo (js_or country (JStr "the open sea")) code)
     else ret the_open_sea)
    (fun error =>
       console_error [LStr "Failed to get country from lat/lng (server-side):";
                      LErr error];;
       ret an_unknown_location).

(** ** The schema and the document store *)

(** The casts of the schema types [String] and [Number]: [null] and
    [undefined] are kept, a value of the path's type is kept, any other
    value is converted or refused as the schema layer decides. *)
Definition cast_String (env : Env) (v : value) : option value :=
  match v with
  | JUndefined | JNull | JStr _ => Some v
  | _ => JStr <$> cast_to_String env v
  end.

Definition cast_Number (env : Env) (v : value) : option value :=
  match v with
  | JUndefined | JNull | JNum _ => Some v
  | _ => JNum <$> cast_to_Number env v
  end.

(** [new Heart(args)]: every argument is cast to the type of its path;
    [None] when a cast fails, which leaves the document invalid. The
    handler supplies every field of the schema, so the schema's defaults
    are never consulted; they are not modelled. *)
Definition new_Heart (env : Env) (args : Heart) : option Heart :=
  type ← cast_String env (type args);
  latitude ← cast_Number env (latitude args);
  longitude ← cast_Number env (longitude args);
  message ← cast_String env (message args);
  countryName ← cast_String env (countryName args);
  Some {| type := type;
          latitude := latitude;
          longitude := longitude;
          message := message;
          countryName := countryName;
          countryCode := countryCode args;
          timestamp := timestamp args |}.

(** [enum: ['redHeart', 'silverHeart', 'yellowHeart']] *)
Definition heart_types : list string := ["redHeart"; "silverHeart"; "yellowHeart"].

Definition is_number (v : value) : bool :=
  match v with JNum _ => true | _ => false end.

(** The validators of the schema: [type] is required and one of the
    enumeration, [latitude] and [longitude] are required. *)
Definition validates (h : Heart) : bool :=
  match type h with
  | JStr s => existsb (String.eqb s) heart_types
  | _ => false
  end
  && is_number (latitude h) && is_number (longitude h).

(** The error [save()] rejects with when a cast or a validator failed; its
    message is abridged. *)
Definition validation_failed : error := Rejected "Heart validation failed".

(** What becomes of the document built from [args] when it is saved: the
    document as inserted, or the error. *)
Definition persist (env : Env) (args : Heart) : result Heart :=
  match new_Heart env args with
  | None => Throw validation_failed
  | Some newHeart =>
      if validates newHeart then
        match save_outcome env newHeart with
        | Some e => Throw e
        | None => Ok newHeart
        end
      else Throw validation_failed
  end.

(** [const newHeart = new Heart(args); await newHeart.save()], resolving
    to the saved document. *)
Definition save (env : Env) (args : Heart) : M Heart :=
  emit (EvSave args);;
  ((fun w => match persist env args with
             | Throw e => (Throw e, w)
             | Ok newHeart =>
                 (Ok newHeart, mkWorld (store w ++ [newHeart]) (now w) (trace w))
             end) : M Heart).

(** Newest first: [{ timestamp: -1 }]. *)
Definition newer_first (h1 h2 : Heart) : Prop := timestamp h2 <= timestamp h1.

Global Instance newer_first_dec h1 h2 : Decision (newer_first h1 h2).
Proof. unfold newer_first. apply _. Defined.

(** [await Heart.find().sort({ timestamp: -1 })] *)
Definition find_sorted (env : Env) : M (list Heart) :=
  emit EvFind;;
  ((fun w => match find_outcome env with
             | Some e => (Throw e, w)
             | None => (Ok (merge_sort newer_first (store w)), w)
             end) : M (list Heart)).

(** ** [POST /api/hearts] *)

Definition missing_fields : string :=
  "Missing required fields: type, latitude, longitude".

Definition post_hearts (env : Env) (req_body : value) : M HttpResponse :=
  try_catch
    (type ← get_prop req_body "type";
     latitude ← get_prop req_body "latitude";
     longitude ← get_prop req_body "longitude";
     message ← get_prop req_body "message";
     if is_undefined latitude || is_undefined longitude || negb (truthy type)
     then ret (json_response 400 (RError missing_fields))
     else
       geo ← getCountryFromServerLatLng env latitude longitude;
       date ← new_Date;
       newHeart ← save env
         {| type := type;
            latitude := latitude;
            longitude := longitude;
            message := js_or message (JStr "");
            countryName := geo_countryName geo;
            countryCode := geo_countryCode geo;
            timestamp := date |};
       ret (json_response 201 (RHeart newHeart)))
    (fun error =>
       console_error [LStr "Error creating heart:"; LErr error];;
       ret (json_response 500 (RError "Failed to create heart"))).

(** ** [GET /api/hearts] *)

Definition get_hearts (env : Env) : M HttpResponse :=
  try_catch
    (hearts ← find_sorted env;
     ret (json_response 200 (RHearts hearts)))
    (fun error =>
       console_error [LStr "Error fetching hearts:"; LErr error];;
       ret (json_response 500 (RError "Failed to fetch hearts"))).

(** ** Sequences of requests *)

(** Requests are served one after the other; the handlers share nothing
    but the collection, which a creation touches in a single insert. *)

Inductive request : Type :=
  | Create (arrives_at : Z) (env : Env) (req_body : value)
  | List (env : Env).

(** One request served to completion; a creation starts when the clock
    shows [arrives_at]. *)
Definition serve (r : request) (w : World) : result HttpResponse * World :=
  match r with
  | Create t env b => post_hearts env b (mkWorld (store w) t (trace w))
  | List env => get_hearts env w
  end.

Fixpoint serve_all (rs : list request) (w : World) : list (result HttpResponse) * World :=
  match rs with
  | [] => ([], w)
  | r :: rs' =>
      let (resp, w') := serve r w in
      let (resps, w'') := serve_all rs' w' in
      (resp :: resps, w'')
  end.

Definition empty_world : World := mkWorld [] 0 [].

(** Number of requests answered with [201]. *)
Definition is_created (r : result HttpResponse) : bool :=
  match r with
  | Ok resp => (http_status resp =? 201)%Z
  | Throw _ => false
  end.

Definition created_count (rs : list (result HttpResponse)) : nat :=
  length (filter (fun r => is_created r = true) rs).

(** ** Vocabulary of the statements *)

(** What [express.json()] leaves in [req.body]: an object or an array. *)
Definition body_parsed (b : value) : Prop :=
  match b with JObj _ | JArr _ => True | _ => False end.

(** [null] and [undefined] cannot be destructured. *)
Definition nullish (v : value) : bool :=
  match v with JUndefined | JNull => true | _ => false end.

Definition is_fetch (e : event) : bool :=
  match e with EvFetch _ _ => true | _ => false end.

(** Calls made to the geocoder. *)
Definition fetch_count (tr : list event) : nat :=
  length (filter (fun e => is_fetch e = true) tr).

Definition is_save (e : event) : bool :=
  match e with EvSave _ => true | _ => false end.

(** Writes attempted on the store. *)
Definition save_count (tr : list event) : nat :=
  length (filter (fun e => is_save e = true) tr).

Definition is_console_error (e : event) : Prop :=
  match e with EvConsoleError _ => True | _ => False end.

(** Both coordinates can be written into the URL, so the geocoder is
    called. *)
Definition url_ok (lat lng : value) : bool := to_string_ok lat && to_string_ok lng.

(** Clock time that passes in the helper: the wait for the geocoder, when
    it is called. *)
Definition call_elapsed (env : Env) (lat lng : value) : Z :=
  if url_ok lat lng then fetch_elapsed env else 0.

(** The test on line 69: [latitude === undefined || longitude === undefined || !type]. *)
Definition fails_validation (b : value) : bool :=
  is_undefined (prop_of b "latitude") || is_undefined (prop_of b "longitude")
  || negb (truthy (prop_of b "type")).

(** The object the handler passes to [new Heart(...)], from the request,
    the helper's answer and the clock. *)
Definition heart_of (b : value) (g : Geo) (date : Z) : Heart :=
  {| type := prop_of b "type";
     latitude := prop_of b "latitude";
     longitude := prop_of b "longitude";
     message := js_or (prop_of b "message") (JStr "");
     countryName := geo_countryName g;
     countryCode := geo_countryCode g;
     timestamp := date |}.

(** What the helper writes to the log when the geocoder answers with a
    non-success status [r]. *)
Definition non_ok_log (r : Response) : list event :=
  match text r with
  | Ok body =>
      [EvConsoleError [LStr "Nominatim API response not OK:";
                       LNum (status r); LStr body];
       EvConsoleError [LStr "Failed to get country from lat/lng (server-side):";
                       LErr (JsError "Network response was not ok from Nominatim.")]]
  | Throw e =>
      [EvConsoleError [LStr "Failed to get country from lat/lng (server-side):";
                       LErr e]]
  end.

(** The ways the enrichment call fails at transport level: [fetch] rejects,
    the body of a successful reply is not JSON, or an exception is thrown
    while the reply is read ([country_code] has no [toUpperCase]). *)
Inductive transport_failure (env : Env) (lat lng : value) : Prop :=
  | network_error e :
      fetch_outcome env lat lng = Throw e ->
      transport_failure env lat lng
  | malformed_response r e :
      fetch_outcome env lat lng = Ok r -> ok r = true -> json r = Throw e ->
      transport_failure env lat lng
  | thrown_exception r data :
      fetch_outcome env lat lng = Ok r -> ok r = true -> json r = Ok data ->
      truthy data = true ->
      truthy (prop_of data "address") = true ->
      truthy (prop_of (prop_of data "address") "country_code") = true ->
      (forall s, prop_of (prop_of data "address") "country_code" <> JStr s) ->
      transport_failure env lat lng.

(** [data && data.address] *)
Definition address_of (data : value) : value :=
  if truthy data then prop_of data "address" else data.

(** Lines 50-57 on the parsed reply [data]: the pair returned, or [None]
    when [country_code] is truthy and has no [toUpperCase]. *)
Definition geo_of_reply (env : Env) (data : value) : option Geo :=
  if truthy (address_of data) then
    let name := js_or (prop_of (address_of data) "country") (JStr "the open sea") in
    match prop_of (address_of data) "country_code" with
    | JStr s => Some (mkGeo name (if String.eqb s "" then "XX" else upper_case env s))
    | cc => if truthy cc then None else Some (mkGeo name "XX")
    end
  else Some the_open_sea.

(** [c] is the upper case of a non-empty [country_code] string that the
    geocoder sent in a successful reply to the call made for [lat], [lng]. *)
Definition code_from_reply (env : Env) (lat lng : value) (c : string) : Prop :=
  exists r data s,
    url_ok lat lng = true
    /\ fetch_outcome env lat lng = Ok r /\ ok r = true /\ json r = Ok data
    /\ prop_of (address_of data) "country_code" = JStr s
    /\ s <> ""
    /\ c = upper_case env s.

(** [c] is ["XX"] or comes from the geocoder's reply to one of the
    creation requests of [rs]. *)
Definition code_from_run (rs : list request) (c : string) : Prop :=
  c = "XX"
  \/ exists t env b,
      In (Create t env b) rs
      /\ code_from_reply env (prop_of b "latitude") (prop_of b "longitude") c.

(** The shape of a document that passed the casts and the validators: a
    [type] of the enumeration, numeric coordinates, strings for [message]
    and [countryName]. *)
Definition stored_shape (h : Heart) : Prop :=
  (exists s, type h = JStr s /\ In s heart_types)
  /\ (exists q, latitude h = JNum q)
  /\ (exists q, longitude h = JNum q)
  /\ (exists m, message h = JStr m)
  /\ (exists n, countryName h = JStr n).

(** The records carried by the 201 answers of a run, in the order of the
    answers. *)
Definition created_hearts (rs : list (result HttpResponse)) : list Heart :=
  flat_map (fun r => match r with
                     | Ok (json_response 201 (RHeart h)) => [h]
                     | _ => []
                     end) rs.

Definition is_create (r : request) : bool :=
  match r with Create _ _ _ => true | List _ => false end.

(** Creation requests in a run. *)
Definition create_count (rs : list request) : nat :=
  length (filter (fun r => is_create r = true) rs).

(** ** Sample requests and replies *)

(** A successful reply carrying [data]. *)
Definition reply (data : value) : Response :=
  mkResponse true 200 (Ok "") (Ok data).

(** An environment whose geocoder always answers [o], whose clock moves
    by 5 ms during the call and whose store inserts every valid document.
    Its strings are ASCII; its schema layer refuses to cast a value that
    is not already of the type of its path (the samples do not send such
    values where it matters). *)
Definition env_of (o : result Response) : Env :=
  mkEnv (fun _ _ => o) 5 (fun _ => None) None
        toUpperCase (fun _ => None) (fun _ => None).

(** The same with a store that is down: every write and every query is
    rejected. *)
Definition env_store_down : Env :=
  mkEnv (fun _ _ => Ok (reply (JObj ∅))) 5
        (fun _ => Some (Rejected "MongoNetworkError"))
        (Some (Rejected "MongoNetworkError"))
        toUpperCase (fun _ => None) (fun _ => None).

Definition paris_lat : value := JNum (488566 # 10000).
Definition paris_lng : value := JNum (23522 # 10000).

Definition service_unavailable : Response :=
  mkResponse false 503 (Ok "Service Unavailable") (Throw (Rejected "Unexpected token S in JSON")).

Definition red_heart_in_paris : value :=
  JObj {[ "type" := JStr "redHeart";
          "latitude" := paris_lat;
          "longitude" := paris_lng;
          "message" := JStr "bonjour" ]}.

Definition bare_heart : gmap string value :=
  {[ "type" := JStr "redHeart"; "latitude" := paris_lat; "longitude" := paris_lng ]}.

Definition code_only_address : value :=
  JObj {[ "address" := JObj {[ "country_code" := JStr "fr" ]} ]}.

Definition france : value :=
  JObj {[ "address" := JObj {[ "country" := JStr "France";
                               "country_code" := JStr "fr" ]} ]}.

Definition numeric_code : value :=
  JObj {[ "address" := JObj {[ "country" := JStr "France";
                               "country_code" := JNum (33 # 1) ]} ]}.

Definition no_latitude : value :=
  JObj {[ "type" := JStr "redHeart"; "longitude" := paris_lng ]}.

Definition empty_type : value :=
  JObj {[ "type" := JStr ""; "latitude" := paris_lat; "longitude" := paris_lng ]}.

Definition three_letter_code : value :=
  JObj {[ "address" := JObj {[ "country" := JStr "France";
                               "country_code" := JStr "fra" ]} ]}.

Definition null_island : value :=
  JObj {[ "type" := JStr "redHeart"; "latitude" := JNull;
          "longitude" := JStr "east"; "message" := JNum (0 # 1) ]}.

Definition silent_heart : value :=
  JObj {[ "type" := JStr "silverHeart"; "latitude" := paris_lat;
          "longitude" := paris_lng; "message" := JBool false ]}.

(** A coordinate that cannot be written into the URL. *)
Definition unprintable : value := JObj {[ "toString" := JNull ]}.

(** A document as the store holds it. *)
Definition old_heart : Heart :=
  mkHeart (JStr "silverHeart") (JNum (0 # 1)) (JNum (0 # 1)) (JStr "")
          (JStr "the open sea") "XX" 7.

(** ** Running the monad *)

Ltac run :=
  cbv [mbind mret M_bind M_ret bind ret throw try_catch lift emit
       console_error new_Date fetch save find_sorted get_prop
       call_toUpperCase negb orb is_undefined];
  cbn [store now trace ok status text json geo_countryName geo_countryCode
       fst snd].

(** Evaluate the counters on the explicit tail of a trace. *)
Ltac count_tail :=
  repeat match goal with
         | |- context [fetch_count (?x :: ?l)] =>
             let v := eval vm_compute in (fetch_count (x :: l)) in
             change (fetch_count (x :: l)) with v
         | |- context [save_count (?x :: ?l)] =>
             let v := eval vm_compute in (save_count (x :: l)) in
             change (save_count (x :: l)) with v
         end.

(** Evaluate the counters of a one-request run. *)
Ltac count_answers :=
  repeat match goal with
         | |- context [created_count [?x]] =>
             let v := eval vm_compute in (created_count [x]) in
             change (created_count [x]) with v
         | |- context [create_count [?x]] =>
             let v := eval vm_compute in (create_count [x]) in
             change (create_count [x]) with v
         end.

(** ** Basic facts *)

Lemma truthy_JStr s : truthy (JStr s) = true <-> s <> "".
Proof.
  cbn. destruct (String.eqb_spec s ""); cbn; split; congruence.
Qed.

Lemma fetch_count_app a b :
  fetch_count (a ++ b) = (fetch_count a + fetch_count b)%nat.
Proof. unfold fetch_count. now rewrite filter_app, length_app. Qed.

Lemma save_count_app a b :
  save_count (a ++ b) = (save_count a + save_count b)%nat.
Proof. unfold save_count. now rewrite filter_app, length_app. Qed.

Lemma filter_logs (P : event -> bool) logs :
  (forall args, P (EvConsoleError args) = false) ->
  Forall is_console_error logs ->
  filter (fun e => P e = true) logs = [].
Proof.
  intros HP Hlogs. induction Hlogs as [|e logs He _ IH]; [reflexivity|].
  destruct e; try contradiction.
  rewrite filter_cons_False by (rewrite HP; discriminate). exact IH.
Qed.

Lemma fetch_count_logs tr lat lng logs :
  Forall is_console_error logs ->
  fetch_count (tr ++ EvFetch lat lng :: logs) = S (fetch_count tr).
Proof.
  intros Hlogs. rewrite fetch_count_app. unfold fetch_count at 2.
  rewrite filter_cons_True by reflexivity.
  rewrite (filter_logs is_fetch logs (fun _ => eq_refl) Hlogs). cbn. lia.
Qed.

Lemma save_count_logs tr lat lng logs :
  Forall is_console_error logs ->
  save_count (tr ++ EvFetch lat lng :: logs) = save_count tr.
Proof.
  intros Hlogs. rewrite save_count_app. unfold save_count at 2.
  rewrite filter_cons_False by discriminate.
  rewrite (filter_logs is_save logs (fun _ => eq_refl) Hlogs). cbn. lia.
Qed.

(** *** The helper *)

(** When a coordinate cannot be written into the URL the geocoder is not
    called. *)
Lemma getCountry_no_url env lat lng w :
  url_ok lat lng = false ->
  getCountryFromServerLatLng env lat lng w =
    (Ok an_unknown_location,
     mkWorld (store w) (now w)
       (trace w ++ [EvConsoleError
                      [LStr "Failed to get country from lat/lng (server-side):";
                       LErr (JsTypeError "Cannot convert object to primitive value")]])).
Proof.
  unfold url_ok. intros H. destruct w as [st0 t0 tr0].
  unfold getCountryFromServerLatLng, reverse_url. rewrite H. reflexivity.
Qed.

(** Reading a successful reply. *)
Lemma getCountry_reads_reply env lat lng w r data :
  url_ok lat lng = true ->
  fetch_outcome env lat lng = Ok r -> ok r = true -> json r = Ok data ->
  getCountryFromServerLatLng env lat lng w =
    match geo_of_reply env data with
    | Some g =>
        (Ok g, mkWorld (store w) (now w + fetch_elapsed env)
                       (trace w ++ [EvFetch lat lng]))
    | None =>
        (Ok an_unknown_location,
         mkWorld (store w) (now w + fetch_elapsed env)
           (trace w ++ [EvFetch lat lng;
                        EvConsoleError
                          [LStr "Failed to get country from lat/lng (server-side):";
                           LErr (JsTypeError "toUpperCase is not a function")]]))
    end.
Proof.
  unfold url_ok. destruct w as [st0 t0 tr0], r as [o st tx js]. cbn.
  intros Hurl Hf -> ->.
  unfold getCountryFromServerLatLng, reverse_url. rewrite Hurl. run. rewrite Hf. run.
  assert (Hdata : (if truthy data then get_prop data "address" else ret data)
                  = ret (address_of data)).
  { unfold address_of. destruct (truthy data) eqn:Hd; [|reflexivity].
    destruct data; try discriminate Hd; reflexivity. }
  cbv [get_prop ret throw] in Hdata. rewrite Hdata.
  unfold geo_of_reply. set (address := address_of data) in *.
  destruct (truthy address) eqn:Ha; [|reflexivity].
  assert (Haddr : forall n, get_prop address n = ret (prop_of address n))
    by (intros n; destruct address; try discriminate Ha; reflexivity).
  cbv [get_prop ret throw] in Haddr. rewrite !Haddr.
  destruct (prop_of address "country_code") as [| |b|q|s| |]; cbn [truthy];
    try reflexivity.
  - destruct b; cbn [store now trace]; rewrite <- ?app_assoc; reflexivity.
  - destruct (negb (Qnum q =? 0)); cbn [store now trace]; rewrite <- ?app_assoc;
      reflexivity.
  - destruct (String.eqb s ""); reflexivity.
  - cbn [store now trace]. rewrite <- app_assoc. reflexivity.
  - cbn [store now trace]. rewrite <- app_assoc. reflexivity.
Qed.

Lemma getCountry_fetch_rejects env lat lng w e :
  url_ok lat lng = true -> fetch_outcome env lat lng = Throw e ->
  getCountryFromServerLatLng env lat lng w =
    (Ok an_unknown_location,
     mkWorld (store w) (now w + fetch_elapsed env)
       (trace w ++ [EvFetch lat lng;
                    EvConsoleError
                      [LStr "Failed to get country from lat/lng (server-side):";
                       LErr e]])).
Proof.
  unfold url_ok. destruct w as [st0 t0 tr0]. intros Hurl Hf.
  unfold getCountryFromServerLatLng, reverse_url. rewrite Hurl. run. rewrite Hf. run.
  rewrite <- app_assoc. reflexivity.
Qed.

Lemma getCountry_non_ok env lat lng w r :
  url_ok lat lng = true -> fetch_outcome env lat lng = Ok r -> ok r = false ->
  getCountryFromServerLatLng env lat lng w =
    (Ok an_unknown_location,
     mkWorld (store w) (now w + fetch_elapsed env)
             (trace w ++ EvFetch lat lng :: non_ok_log r)).
Proof.
  unfold url_ok. destruct w as [st0 t0 tr0], r as [o st tx js]. cbn.
  intros Hurl Hf ->.
  unfold getCountryFromServerLatLng, reverse_url, non_ok_log. rewrite Hurl. run.
  rewrite Hf. run.
  destruct tx; run; rewrite <- ?app_assoc; reflexivity.
Qed.

Lemma getCountry_bad_json env lat lng w r e :
  url_ok lat lng = true ->
  fetch_outcome env lat lng = Ok r -> ok r = true -> json r = Throw e ->
  getCountryFromServerLatLng env lat lng w =
    (Ok an_unknown_location,
     mkWorld (store w) (now w + fetch_elapsed env)
       (trace w ++ [EvFetch lat lng;
                    EvConsoleError
                      [LStr "Failed to get country from lat/lng (server-side):";
                       LErr e]])).
Proof.
  unfold url_ok. destruct w as [st0 t0 tr0], r as [o st tx js]. cbn.
  intros Hurl Hf -> ->.
  unfold getCountryFromServerLatLng, reverse_url. rewrite Hurl. run. rewrite Hf. run.
  rewrite <- app_assoc. reflexivity.
Qed.

Lemma non_ok_log_logs r : Forall is_console_error (non_ok_log r).
Proof. unfold non_ok_log. destruct (text r); repeat constructor. Qed.

Lemma geo_of_reply_no_address env data :
  truthy (address_of data) = false -> geo_of_reply env data = Some the_open_sea.
Proof. unfold geo_of_reply. now intros ->. Qed.

Lemma geo_of_reply_no_code env data :
  truthy (address_of data) = true ->
  truthy (prop_of (address_of data) "country_code") = false ->
  geo_of_reply env data
  = Some (mkGeo (js_or (prop_of (address_of data) "country") (JStr "the open sea"))
                "XX").
Proof.
  unfold geo_of_reply. intros -> Hcc.
  destruct (prop_of (address_of data) "country_code") as [| |b|q|s| |];
    cbn [truthy] in *; rewrite ?Hcc; try reflexivity; try discriminate Hcc.
  destruct (String.eqb s ""); [reflexivity|discriminate Hcc].
Qed.

Lemma geo_of_reply_code env data s :
  truthy (address_of data) = true ->
  prop_of (address_of data) "country_code" = JStr s -> s <> "" ->
  geo_of_reply env data
  = Some (mkGeo (js_or (prop_of (address_of data) "country") (JStr "the open sea"))
                (upper_case env s)).
Proof.
  unfold geo_of_reply. intros -> -> Hs.
  destruct (String.eqb_spec s ""); [contradiction|reflexivity].
Qed.

Lemma geo_of_reply_throws env data :
  truthy (address_of data) = true ->
  truthy (prop_of (address_of data) "country_code") = true ->
  (forall s, prop_of (address_of data) "country_code" <> JStr s) ->
  geo_of_reply env data = None.
Proof.
  unfold geo_of_reply. intros -> Hcc Hs.
  destruct (prop_of (address_of data) "country_code") as [| |b|q|s| |];
    cbn [truthy] in *; rewrite ?Hcc; try reflexivity; try discriminate Hcc.
  now destruct (Hs s).
Qed.

(** What a parsed reply can yield: a truthy name, and a code that is
    ["XX"] or the upper case of the reply's non-empty [country_code]. *)
Lemma geo_of_reply_Some env data g :
  geo_of_reply env data = Some g ->
  truthy (geo_countryName g) = true
  /\ (geo_countryCode g = "XX"
      \/ exists s, prop_of (address_of data) "country_code" = JStr s
                   /\ s <> "" /\ geo_countryCode g = upper_case env s).
Proof.
  unfold geo_of_reply. destruct (truthy (address_of data)) eqn:Ha.
  2: { intros H. injection H as <-. split; [reflexivity|now left]. }
  assert (Hname : truthy (js_or (prop_of (address_of data) "country")
                             (JStr "the open sea")) = true).
  { unfold js_or. destruct (truthy (prop_of (address_of data) "country")) eqn:Hc;
      [exact Hc|reflexivity]. }
  destruct (prop_of (address_of data) "country_code") as [| |b|q|s| |] eqn:Hcc;
    cbn [truthy]; try discriminate;
    try (intros H; injection H as <-; split; [exact Hname|now left]).
  - destruct b; [discriminate|].
    intros H; injection H as <-; split; [exact Hname|now left].
  - destruct (negb (Qnum q =? 0)); [discriminate|].
    intros H; injection H as <-; split; [exact Hname|now left].
  - intros H; injection H as <-. split; [exact Hname|]. cbn.
    destruct (String.eqb_spec s ""); [now left|]. right. now exists s.
Qed.

(** With coordinates that can be written into the URL the geocoder is
    called once and the helper returns normally. *)
Lemma getCountry_called env lat lng w :
  url_ok lat lng = true ->
  exists g logs,
    getCountryFromServerLatLng env lat lng w =
      (Ok g, mkWorld (store w) (now w + fetch_elapsed env)
                     (trace w ++ EvFetch lat lng :: logs))
    /\ Forall is_console_error logs
    /\ truthy (geo_countryName g) = true
    /\ (geo_countryCode g = "XX"
        \/ code_from_reply env lat lng (geo_countryCode g)).
Proof.
  intros Hurl.
  destruct (fetch_outcome env lat lng) as [r|e] eqn:Hf.
  2: { eexists _, _. split; [eapply getCountry_fetch_rejects; eassumption|].
       split; [repeat constructor|]. split; [reflexivity|now left]. }
  destruct (ok r) eqn:Hok.
  2: { eexists _, _. split; [eapply getCountry_non_ok; eassumption|].
       split; [apply non_ok_log_logs|]. split; [reflexivity|now left]. }
  destruct (json r) as [data|e] eqn:Hjs.
  2: { eexists _, _. split; [eapply getCountry_bad_json; eassumption|].
       split; [repeat constructor|]. split; [reflexivity|now left]. }
  rewrite (getCountry_reads_reply env lat lng w r data Hurl Hf Hok Hjs).
  destruct (geo_of_reply env data) as [g|] eqn:Hg.
  - destruct (geo_of_reply_Some env data g Hg) as [Hname Hcode].
    eexists _, _. split; [reflexivity|]. split; [constructor|].
    split; [exact Hname|].
    destruct Hcode as [Hc|(s & Hcc & Hs & Hc)]; [now left|].
    right. exists r, data, s. auto 10.
  - eexists _, _. split; [reflexivity|]. split; [repeat constructor|].
    split; [reflexivity|now left].
Qed.

(** The helper always returns normally; it leaves the collection alone,
    calls the geocoder once when the URL can be built and not at all
    otherwise, and attempts no write. *)
Lemma getCountry_returns env lat lng w :
  exists g w1,
    getCountryFromServerLatLng env lat lng w = (Ok g, w1)
    /\ store w1 = store w
    /\ now w1 = now w + call_elapsed env lat lng
    /\ fetch_count (trace w1)
       = (fetch_count (trace w) + (if url_ok lat lng then 1 else 0))%nat
    /\ save_count (trace w1) = save_count (trace w)
    /\ (url_ok lat lng = true -> In (EvFetch lat lng) (trace w1))
    /\ (exists tail, trace w1 = trace w ++ tail)
    /\ truthy (geo_countryName g) = true
    /\ (geo_countryCode g = "XX"
        \/ code_from_reply env lat lng (geo_countryCode g)).
Proof.
  unfold call_elapsed. destruct (url_ok lat lng) eqn:Hurl.
  - destruct (getCountry_called env lat lng w Hurl)
      as (g & logs & Hg & Hlogs & Hname & Hcode).
    eexists _, _. split; [exact Hg|]. cbn [store now trace].
    rewrite fetch_count_logs, save_count_logs by assumption.
    repeat split; try assumption; try lia.
    + intros _. apply in_elt.
    + eauto.
  - rewrite getCountry_no_url by assumption. eexists _, _. split; [reflexivity|].
    cbn [store now trace]. rewrite fetch_count_app, save_count_app. count_tail.
    repeat split; try lia; try discriminate; eauto.
Qed.

(** *** The schema *)

Lemma cast_String_string env s v :
  cast_String env (JStr s) = Some v -> v = JStr s.
Proof. cbn. congruence. Qed.

Lemma cast_Number_number env q v :
  cast_Number env (JNum q) = Some v -> v = JNum q.
Proof. cbn. congruence. Qed.

Lemma cast_String_defined env v v' :
  cast_String env v = Some v' -> nullish v = false -> exists s, v' = JStr s.
Proof.
  destruct v; cbn; try discriminate; intros H _;
    try (destruct (cast_to_String env _); cbn in H; [|discriminate H]);
    injection H as <-; eauto.
Qed.

(** A document that was built: its fields are the casts of the arguments. *)
Lemma new_Heart_Some env args doc :
  new_Heart env args = Some doc ->
  cast_String env (type args) = Some (type doc)
  /\ cast_Number env (latitude args) = Some (latitude doc)
  /\ cast_Number env (longitude args) = Some (longitude doc)
  /\ cast_String env (message args) = Some (message doc)
  /\ cast_String env (countryName args) = Some (countryName doc)
  /\ countryCode doc = countryCode args
  /\ timestamp doc = timestamp args.
Proof.
  unfold new_Heart. intros H.
  destruct (cast_String env (type args)); cbn in H; [|discriminate H].
  destruct (cast_Number env (latitude args)); cbn in H; [|discriminate H].
  destruct (cast_Number env (longitude args)); cbn in H; [|discriminate H].
  destruct (cast_String env (message args)); cbn in H; [|discriminate H].
  destruct (cast_String env (countryName args)); cbn in H; [|discriminate H].
  injection H as <-. cbn. repeat split.
Qed.

Lemma persist_Ok env args doc :
  persist env args = Ok doc ->
  new_Heart env args = Some doc /\ validates doc = true
  /\ save_outcome env doc = None.
Proof.
  unfold persist. destruct (new_Heart env args) as [h|]; [|discriminate].
  destruct (validates h) eqn:Hv; [|discriminate].
  destruct (save_outcome env h) eqn:Hs; [discriminate|].
  intros H. injection H as <-. auto.
Qed.

Lemma validates_shape h :
  validates h = true ->
  (exists s, type h = JStr s /\ In s heart_types)
  /\ (exists q, latitude h = JNum q) /\ (exists q, longitude h = JNum q).
Proof.
  unfold validates. rewrite !andb_true_iff. intros [[Ht Hlat] Hlng].
  repeat split.
  - destruct (type h) as [| | | |s| |]; try discriminate Ht. exists s. split; [reflexivity|].
    apply existsb_exists in Ht as (x & Hx & E). apply String.eqb_eq in E. now subst.
  - destruct (latitude h); try discriminate Hlat. eauto.
  - destruct (longitude h); try discriminate Hlng. eauto.
Qed.

(** A saved document has the shape of the schema and keeps the code and
    the timestamp it was given. *)
Lemma persist_shape env args doc :
  persist env args = Ok doc ->
  nullish (message args) = false -> nullish (countryName args) = false ->
  stored_shape doc
  /\ countryCode doc = countryCode args
  /\ timestamp doc = timestamp args.
Proof.
  intros Hp Hm Hn. apply persist_Ok in Hp as (Hnew & Hv & _).
  apply new_Heart_Some in Hnew as (_ & _ & _ & Hmsg & Hname & Hcode & Hts).
  apply validates_shape in Hv as (Ht & Hlat & Hlng).
  repeat split; try assumption.
  - eapply cast_String_defined; eassumption.
  - eapply cast_String_defined; eassumption.
Qed.

Lemma js_or_not_nullish v s : nullish (js_or v (JStr s)) = false.
Proof.
  unfold js_or. destruct (truthy v) eqn:Hv; [|reflexivity].
  destruct v; try discriminate Hv; reflexivity.
Qed.

Lemma truthy_not_nullish v : truthy v = true -> nullish v = false.
Proof. destruct v; cbn; congruence. Qed.

(** *** The create handler *)

Lemma body_parsed_not_nullish b : body_parsed b -> nullish b = false.
Proof. destruct b; cbn; intros []; reflexivity. Qed.

Lemma post_hearts_nullish env b w :
  nullish b = true ->
  post_hearts env b w =
    (Ok (json_response 500 (RError "Failed to create heart")),
     mkWorld (store w) (now w)
       (trace w ++ [EvConsoleError
                      [LStr "Error creating heart:";
                       LErr (JsTypeError "Cannot read properties of undefined or null")]])).
Proof.
  unfold post_hearts. destruct b; try discriminate; reflexivity.
Qed.

Lemma post_hearts_rejects env b w :
  nullish b = false -> fails_validation b = true ->
  post_hearts env b w = (Ok (json_response 400 (RError missing_fields)), w).
Proof.
  unfold fails_validation, post_hearts. intros Hb Hv.
  destruct b; try discriminate Hb; run; cbv [is_undefined orb negb] in Hv;
    rewrite Hv; reflexivity.
Qed.

(** Past the validation the handler asks the helper, builds the document
    with the clock read after the helper returned, and answers by what
    becomes of the document. *)
Lemma post_hearts_passes env b w g w1 :
  nullish b = false -> fails_validation b = false ->
  getCountryFromServerLatLng env (prop_of b "latitude") (prop_of b "longitude") w
    = (Ok g, w1) ->
  post_hearts env b w =
    match persist env (heart_of b g (now w1)) with
    | Ok newHeart =>
        (Ok (json_response 201 (RHeart newHeart)),
         mkWorld (store w1 ++ [newHeart]) (now w1)
                 (trace w1 ++ [EvSave (heart_of b g (now w1))]))
    | Throw e =>
        (Ok (json_response 500 (RError "Failed to create heart")),
         mkWorld (store w1) (now w1)
           (trace w1 ++ [EvSave (heart_of b g (now w1));
                         EvConsoleError [LStr "Error creating heart:"; LErr e]]))
    end.
Proof.
  intros Hb Hv Hg. unfold fails_validation in Hv. unfold post_hearts.
  destruct w1 as [st1 t1 tr1].
  destruct b; try discriminate Hb; run; cbv [is_undefined orb negb] in Hv;
    rewrite Hv, Hg; run; unfold heart_of;
    match goal with |- context [persist env ?h] =>
      destruct (persist env h) end; run;
    rewrite <- ?app_assoc; reflexivity.
Qed.

(** The handler reads the request body through four properties only. *)
Lemma post_hearts_ext env b1 b2 w :
  nullish b1 = false -> nullish b2 = false ->
  prop_of b1 "type" = prop_of b2 "type" ->
  prop_of b1 "latitude" = prop_of b2 "latitude" ->
  prop_of b1 "longitude" = prop_of b2 "longitude" ->
  prop_of b1 "message" = prop_of b2 "message" ->
  post_hearts env b1 w = post_hearts env b2 w.
Proof.
  intros H1 H2 Ht Hlat Hlng Hm. unfold post_hearts.
  assert (G : forall b n, nullish b = false -> get_prop b n = ret (prop_of b n))
    by (intros b n Hb; destruct b; try discriminate Hb; reflexivity).
  rewrite !(G b1), !(G b2) by assumption.
  rewrite Ht, Hlat, Hlng, Hm. reflexivity.
Qed.

Lemma heart_of_not_nullish b g t :
  truthy (geo_countryName g) = true ->
  nullish (message (heart_of b g t)) = false
  /\ nullish (countryName (heart_of b g t)) = false.
Proof.
  intros Hg. cbn. split; [apply js_or_not_nullish|now apply truthy_not_nullish].
Qed.

(** The three ways a creation request ends, with what each leaves behind. *)
Lemma post_hearts_outcome env b w :
  exists resp w',
    post_hearts env b w = (Ok resp, w')
    /\ ((exists h g w1,
            resp = json_response 201 (RHeart h)
            /\ store w' = store w ++ [h]
            /\ nullish b = false /\ fails_validation b = false
            /\ getCountryFromServerLatLng env (prop_of b "latitude")
                 (prop_of b "longitude") w = (Ok g, w1)
            /\ persist env (heart_of b g (now w1)) = Ok h
            /\ fetch_count (trace w')
               = (fetch_count (trace w)
                  + (if url_ok (prop_of b "latitude") (prop_of b "longitude")
                     then 1 else 0))%nat
            /\ save_count (trace w') = S (save_count (trace w)))
        \/ (resp = json_response 400 (RError missing_fields)
            /\ w' = w
            /\ nullish b = false /\ fails_validation b = true)
        \/ (resp = json_response 500 (RError "Failed to create heart")
            /\ store w' = store w
            /\ (exists e, last (trace w')
                          = Some (EvConsoleError [LStr "Error creating heart:"; LErr e]))
            /\ ((nullish b = true
                 /\ fetch_count (trace w') = fetch_count (trace w)
                 /\ save_count (trace w') = save_count (trace w))
                \/ (nullish b = false /\ fails_validation b = false
                    /\ fetch_count (trace w')
                       = (fetch_count (trace w)
                          + (if url_ok (prop_of b "latitude") (prop_of b "longitude")
                             then 1 else 0))%nat
                    /\ save_count (trace w') = S (save_count (trace w)))))).
Proof.
  destruct (nullish b) eqn:Hb.
  { rewrite post_hearts_nullish by assumption. eexists _, _. split; [reflexivity|].
    right; right. cbn [store trace]. split; [reflexivity|]. split; [reflexivity|].
    split; [eexists; apply last_snoc|]. left.
    rewrite fetch_count_app, save_count_app. count_tail. repeat split; lia. }
  destruct (fails_validation b) eqn:Hv.
  { rewrite post_hearts_rejects by assumption. eexists _, _. split; [reflexivity|].
    right; left. repeat split. }
  destruct (getCountry_returns env (prop_of b "latitude") (prop_of b "longitude") w)
    as (g & w1 & Hg & Hst & _ & Hf & Hs & _).
  rewrite (post_hearts_passes env b w g w1 Hb Hv Hg).
  destruct (persist env _) as [h|e] eqn:Hp; eexists _, _; (split; [reflexivity|]);
    cbn [store trace now].
  - left. exists h, g, w1. rewrite Hst.
    rewrite fetch_count_app, save_count_app, Hf, Hs. count_tail.
    repeat split; try assumption; lia.
  - right; right. rewrite Hst. split; [reflexivity|]. split; [reflexivity|].
    split; [eexists; rewrite last_app_cons; reflexivity|].
    right. rewrite fetch_count_app, save_count_app, Hf, Hs. count_tail.
    repeat split; lia.
Qed.

(** *** Runs *)

Global Instance newer_first_total : Total newer_first.
Proof. intros h1 h2. unfold newer_first. lia. Qed.

Global Instance newer_first_trans : Transitive newer_first.
Proof. intros h1 h2 h3. unfold newer_first. lia. Qed.

Lemma created_hearts_cons r rs :
  created_hearts (r :: rs) = created_hearts [r] ++ created_hearts rs.
Proof. unfold created_hearts. cbn. now rewrite app_nil_r. Qed.

Lemma created_count_cons r rs :
  created_count (r :: rs) = (created_count [r] + created_count rs)%nat.
Proof.
  unfold created_count. destruct (is_created r) eqn:Hr.
  - rewrite !filter_cons_True by exact Hr. reflexivity.
  - rewrite !filter_cons_False by (rewrite Hr; discriminate). reflexivity.
Qed.

Lemma create_count_cons r rs :
  create_count (r :: rs) = (create_count [r] + create_count rs)%nat.
Proof.
  unfold create_count. destruct (is_create r) eqn:Hr.
  - rewrite !filter_cons_True by exact Hr. reflexivity.
  - rewrite !filter_cons_False by (rewrite Hr; discriminate). reflexivity.
Qed.

(** Serving one request, with the bookkeeping of the trace. *)
Lemma serve_outcome r w :
  exists resp w',
    serve r w = (Ok resp, w')
    /\ store w' = store w ++ created_hearts [Ok resp]
    /\ length (created_hearts [Ok resp]) = created_count [Ok resp]
    /\ Forall (fun h => stored_shape h /\ code_from_run [r] (countryCode h))
              (created_hearts [Ok resp])
    /\ exists nf ns,
        fetch_count (trace w') = (fetch_count (trace w) + nf)%nat
        /\ save_count (trace w') = (save_count (trace w) + ns)%nat
        /\ (nf <= ns)%nat
        /\ (created_count [Ok resp] <= ns)%nat
        /\ (ns <= create_count [r])%nat.
Proof.
  destruct r as [t env b|env]; cbn [serve].
  - destruct (post_hearts_outcome env b (mkWorld (store w) t (trace w)))
      as (resp & w' & Hpost & Hcase).
    exists resp, w'. split; [exact Hpost|]. cbn [store trace now] in Hcase.
    destruct Hcase as [(h & g & w1 & -> & Hst & _ & _ & Hg & Hp & Hf & Hs)
                      |[(-> & -> & _)
                       |(-> & Hst & _ & [(_ & Hf & Hs)|(_ & _ & Hf & Hs)])]].
    + split; [exact Hst|]. split; [reflexivity|]. split.
      * cbn. constructor; [|constructor].
        destruct (getCountry_returns env (prop_of b "latitude") (prop_of b "longitude")
                    (mkWorld (store w) t (trace w)))
          as (g' & w1' & Hg' & _ & _ & _ & _ & _ & _ & Hname & Hcode).
        rewrite Hg in Hg'. injection Hg' as <- <-.
        destruct (heart_of_not_nullish b g (now w1) Hname) as [Hm Hn].
        destruct (persist_shape env _ h Hp Hm Hn) as (Hshape & Hc & _).
        split; [exact Hshape|]. rewrite Hc. cbn [countryCode heart_of].
        destruct Hcode as [Hx|Hx]; [now left|].
        right. exists t, env, b. split; [now left|exact Hx].
      * eexists _, 1%nat. split; [exact Hf|]. rewrite Hs. count_answers.
        repeat split; try lia. destruct (url_ok _ _); lia.
    + cbn [store trace]. split; [now rewrite app_nil_r|]. split; [reflexivity|].
      split; [constructor|].
      exists 0%nat, 0%nat. count_answers. repeat split; lia.
    + split; [now rewrite app_nil_r|]. split; [reflexivity|]. split; [constructor|].
      exists 0%nat, 0%nat. rewrite Hf, Hs. count_answers. repeat split; lia.
    + split; [now rewrite app_nil_r|]. split; [reflexivity|]. split; [constructor|].
      eexists _, 1%nat. split; [exact Hf|]. rewrite Hs. count_answers.
      repeat split; try lia. destruct (url_ok _ _); lia.
  - unfold get_hearts. run. destruct w as [st0 t0 tr0].
    destruct (find_outcome env); eexists _, _; (split; [reflexivity|]);
      cbn [store trace]; (split; [now rewrite app_nil_r|]);
      (split; [reflexivity|]);
      (split; [cbn; constructor|]); exists 0%nat, 0%nat;
      rewrite ?fetch_count_app, ?save_count_app; count_tail; count_answers;
      repeat split; lia.
Qed.

Lemma code_from_run_cons_l r rs c : code_from_run [r] c -> code_from_run (r :: rs) c.
Proof.
  intros [H|(t & env & b & Hin & H)]; [now left|].
  right. exists t, env, b. split; [|exact H].
  destruct Hin as [<-|[]]. now left.
Qed.

Lemma code_from_run_cons_r r rs c : code_from_run rs c -> code_from_run (r :: rs) c.
Proof.
  intros [H|(t & env & b & Hin & H)]; [now left|].
  right. exists t, env, b. split; [now right|exact H].
Qed.

(** A run of requests, with the bookkeeping of the trace. *)
Lemma serve_all_outcome rs : forall w,
  store (snd (serve_all rs w)) = store w ++ created_hearts (fst (serve_all rs w))
  /\ length (created_hearts (fst (serve_all rs w)))
     = created_count (fst (serve_all rs w))
  /\ Forall (fun h => stored_shape h /\ code_from_run rs (countryCode h))
            (created_hearts (fst (serve_all rs w)))
  /\ Forall (fun r => exists resp, r = Ok resp) (fst (serve_all rs w))
  /\ length (fst (serve_all rs w)) = length rs
  /\ exists nf ns,
      fetch_count (trace (snd (serve_all rs w))) = (fetch_count (trace w) + nf)%nat
      /\ save_count (trace (snd (serve_all rs w))) = (save_count (trace w) + ns)%nat
      /\ (nf <= ns)%nat
      /\ (created_count (fst (serve_all rs w)) <= ns)%nat
      /\ (ns <= create_count rs)%nat.
Proof.
  induction rs as [|r rs IH]; intros w; cbn [serve_all].
  - cbn. rewrite app_nil_r. repeat split; try constructor.
    exists 0%nat, 0%nat. repeat split; lia.
  - destruct (serve_outcome r w)
      as (resp & w1 & Hs & Hst & Hlen & Hck & nf1 & ns1 & Hf1 & Hs1 & Hle1 & Hlo1 & Hhi1).
    rewrite Hs.
    destruct (IH w1)
      as (Hst' & Hlen' & Hck' & Hok' & Hn' & nf2 & ns2 & Hf2 & Hs2 & Hle2 & Hlo2 & Hhi2).
    destruct (serve_all rs w1) as [resps w2]. cbn [fst snd] in *.
    rewrite created_hearts_cons, created_count_cons, create_count_cons.
    split; [now rewrite Hst', Hst, app_assoc|].
    split; [rewrite length_app; lia|].
    split.
    { apply Forall_app. split.
      - eapply Forall_impl; [exact Hck|]. intros h [H1 H2].
        split; [exact H1|now apply code_from_run_cons_l].
      - eapply Forall_impl; [exact Hck'|]. intros h [H1 H2].
        split; [exact H1|now apply code_from_run_cons_r]. }
    split; [constructor; eauto|].
    split; [cbn; now rewrite Hn'|].
    exists (nf1 + nf2)%nat, (ns1 + ns2)%nat. rewrite Hf2, Hs2, Hf1, Hs1.
    repeat split; lia.
Qed.

Lemma getCountry_transport_failure env lat lng w :
  transport_failure env lat lng ->
  exists w1,
    getCountryFromServerLatLng env lat lng w = (Ok an_unknown_location, w1)
    /\ store w1 = store w
    /\ now w1 = now w + call_elapsed env lat lng.
Proof.
  intros Hfail. unfold call_elapsed. destruct (url_ok lat lng) eqn:Hurl.
  2: { rewrite getCountry_no_url by assumption. eexists. split; [reflexivity|].
       cbn. split; [reflexivity|lia]. }
  assert (Hgeo : forall g w1,
             getCountryFromServerLatLng env lat lng w = (Ok g, w1) ->
             store w1 = store w /\ now w1 = now w + fetch_elapsed env).
  { intros g w1 Hg.
    destruct (getCountry_called env lat lng w Hurl) as (g' & logs & Hg' & _).
    rewrite Hg in Hg'. injection Hg' as _ ->. split; reflexivity. }
  destruct Hfail as [e Hf | r e Hf Hok Hjs | r data Hf Hok Hjs Hd Ha Hc Hs].
  - eexists. split; [eapply getCountry_fetch_rejects; eassumption|].
    split; reflexivity.
  - eexists. split; [eapply getCountry_bad_json; eassumption|].
    split; reflexivity.
  - pose proof (getCountry_reads_reply env lat lng w r data Hurl Hf Hok Hjs) as Hg.
    rewrite geo_of_reply_throws in Hg.
    + eexists. split; [exact Hg|]. split; reflexivity.
    + unfold address_of. now rewrite Hd.
    + unfold address_of. now rewrite Hd.
    + unfold address_of. now rewrite Hd.
Qed.

(** ** The enrichment client *)

(** Claim C1, as stated, fails: with a 503 answer from the geocoder the
    helper raises nothing; it returns the fallback pair. *)
Lemma non_ok_status_raises_nothing :
  ok service_unavailable = false /\
  fetch_outcome (env_of (Ok service_unavailable)) paris_lat paris_lng
    = Ok service_unavailable /\
  fst (getCountryFromServerLatLng (env_of (Ok service_unavailable))
         paris_lat paris_lng empty_world) = Ok an_unknown_location /\
  ~ (exists e w',
        getCountryFromServerLatLng (env_of (Ok service_unavailable))
          paris_lat paris_lng empty_world = (Throw e, w')).
Proof.
  repeat split. intros (e & w' & H). vm_compute in H. discriminate H.
Qed.

(** Claim C1 (amended). When the geocoder answers with a non-success
    status, the helper logs the failure, raises nothing and returns the
    fallback pair [{an unknown location, XX}]; the geocoder has been asked
    exactly once and the store is untouched. (The premise says that the
    geocoder answered: the coordinates could be written into the URL.) *)
Theorem non_ok_status_falls_back env lat lng w r :
  fetch_outcome env lat lng = Ok r -> ok r = false ->
  fst (getCountryFromServerLatLng env lat lng w) = Ok an_unknown_location
  /\ store (snd (getCountryFromServerLatLng env lat lng w)) = store w
  /\ (url_ok lat lng = true ->
      getCountryFromServerLatLng env lat lng w =
        (Ok an_unknown_location,
         mkWorld (store w) (now w + fetch_elapsed env)
                 (trace w ++ EvFetch lat lng :: non_ok_log r))
      /\ fetch_count (trace w ++ EvFetch lat lng :: non_ok_log r)
         = S (fetch_count (trace w))).
Proof.
  intros Hf Hok. destruct (url_ok lat lng) eqn:Hurl.
  - rewrite (getCountry_non_ok env lat lng w r Hurl Hf Hok).
    repeat split. apply fetch_count_logs, non_ok_log_logs.
  - rewrite getCountry_no_url by assumption. repeat split; discriminate.
Qed.

Lemma non_ok_status_falls_back_witness :
  getCountryFromServerLatLng (env_of (Ok service_unavailable))
    paris_lat paris_lng empty_world =
    (Ok an_unknown_location,
     mkWorld [] 5 (EvFetch paris_lat paris_lng :: non_ok_log service_unavailable))
  /\ fetch_count ([] ++ EvFetch paris_lat paris_lng :: non_ok_log service_unavailable)
     = 1%nat.
Proof.
  destruct (non_ok_status_falls_back (env_of (Ok service_unavailable))
              paris_lat paris_lng empty_world service_unavailable eq_refl eq_refl)
    as (_ & _ & H).
  exact (H eq_refl).
Defined.

(** Claim C2. When the enrichment call fails at transport level (network
    error, malformed response, thrown exception) the helper raises nothing
    and returns [{an unknown location, XX}]; a request with valid fields
    whose document the store accepts is answered 201 and exactly those
    sentinel values are stored. *)
Theorem transport_failure_still_creates env b w h :
  body_parsed b -> fails_validation b = false ->
  transport_failure env (prop_of b "latitude") (prop_of b "longitude") ->
  persist env
    (heart_of b an_unknown_location
       (now w + call_elapsed env (prop_of b "latitude") (prop_of b "longitude")))
    = Ok h ->
  (exists w1,
      getCountryFromServerLatLng env (prop_of b "latitude") (prop_of b "longitude") w
        = (Ok an_unknown_location, w1))
  /\ exists w',
      post_hearts env b w = (Ok (json_response 201 (RHeart h)), w')
      /\ store w' = store w ++ [h]
      /\ countryName h = JStr "an unknown location"
      /\ countryCode h = "XX".
Proof.
  intros Hb Hv Hfail Hp.
  destruct (getCountry_transport_failure env _ _ w Hfail) as (w1 & Hg & Hst & Hnow).
  split; [eauto|].
  rewrite (post_hearts_passes env b w _ w1 (body_parsed_not_nullish b Hb) Hv Hg).
  rewrite Hnow, Hp. eexists. split; [reflexivity|]. cbn [store]. rewrite Hst.
  split; [reflexivity|].
  apply persist_Ok in Hp as (Hnew & _).
  apply new_Heart_Some in Hnew as (_ & _ & _ & _ & Hname & Hcode & _).
  split; [|exact Hcode].
  eapply cast_String_string. exact Hname.
Qed.

Lemma transport_failure_still_creates_witness :
  exists w',
    post_hearts (env_of (Throw (Rejected "fetch failed"))) red_heart_in_paris
      empty_world
    = (Ok (json_response 201
             (RHeart (mkHeart (JStr "redHeart") paris_lat paris_lng (JStr "bonjour")
                        (JStr "an unknown location") "XX" 5))), w')
    /\ store w' = [mkHeart (JStr "redHeart") paris_lat paris_lng (JStr "bonjour")
                     (JStr "an unknown location") "XX" 5].
Proof.
  assert (Hfail : transport_failure (env_of (Throw (Rejected "fetch failed")))
                    (prop_of red_heart_in_paris "latitude")
                    (prop_of red_heart_in_paris "longitude"))
    by (apply network_error with (e := Rejected "fetch failed"); reflexivity).
  destruct (transport_failure_still_creates
              (env_of (Throw (Rejected "fetch failed"))) red_heart_in_paris
              empty_world _ I eq_refl Hfail eq_refl)
    as (_ & w' & Hpost & Hstore & _).
  exists w'. split; [exact Hpost|exact Hstore].
Defined.

(** Claim C3, as stated, fails on its second case: an address without
    [country] but with [country_code = "fr"] yields [{the open sea, FR}]. *)
Lemma country_absent_keeps_code :
  truthy (address_of code_only_address) = true /\
  prop_of (address_of code_only_address) "country" = JUndefined /\
  fst (getCountryFromServerLatLng (env_of (Ok (reply code_only_address)))
         paris_lat paris_lng empty_world)
    = Ok (mkGeo (JStr "the open sea") "FR") /\
  fst (getCountryFromServerLatLng (env_of (Ok (reply code_only_address)))
         paris_lat paris_lng empty_world)
    <> Ok the_open_sea.
Proof.
  repeat split. vm_compute. discriminate.
Qed.

(** Claim C3 (amended). When the geocoder's reply has no resolvable
    address the helper returns exactly [{the open sea, XX}]. When an
    address is returned without a country (absent or falsy), the outcome
    follows the address's [country_code]: absent or falsy, the pair is
    [{the open sea, XX}]; a non-empty string, the pair is ["the open sea"]
    with that string in upper case; a truthy value that is no string,
    upper-casing throws and the pair is [{an unknown location, XX}]. In
    all cases the geocoder was asked once and the collection is untouched. *)
Theorem open_sea_fallback env lat lng w r data :
  url_ok lat lng = true ->
  fetch_outcome env lat lng = Ok r -> ok r = true -> json r = Ok data ->
  truthy (address_of data) = false
  \/ truthy (prop_of (address_of data) "country") = false ->
  (truthy (address_of data) = false ->
   fst (getCountryFromServerLatLng env lat lng w) = Ok the_open_sea)
  /\ (truthy (address_of data) = true ->
      truthy (prop_of (address_of data) "country_code") = false ->
      fst (getCountryFromServerLatLng env lat lng w) = Ok the_open_sea)
  /\ (truthy (address_of data) = true ->
      forall s, prop_of (address_of data) "country_code" = JStr s -> s <> "" ->
      fst (getCountryFromServerLatLng env lat lng w)
      = Ok (mkGeo (JStr "the open sea") (upper_case env s)))
  /\ (truthy (address_of data) = true ->
      truthy (prop_of (address_of data) "country_code") = true ->
      (forall s, prop_of (address_of data) "country_code" <> JStr s) ->
      fst (getCountryFromServerLatLng env lat lng w) = Ok an_unknown_location)
  /\ store (snd (getCountryFromServerLatLng env lat lng w)) = store w
  /\ fetch_count (trace (snd (getCountryFromServerLatLng env lat lng w)))
     = S (fetch_count (trace w)).
Proof.
  intros Hurl Hf Hok Hjs Habs.
  assert (Hname : truthy (address_of data) = true ->
                  js_or (prop_of (address_of data) "country") (JStr "the open sea")
                  = JStr "the open sea").
  { intros Ha. destruct Habs as [Habs|Hc]; [congruence|].
    unfold js_or. now rewrite Hc. }
  pose proof (getCountry_reads_reply env lat lng w r data Hurl Hf Hok Hjs) as Hg.
  refine (conj _ (conj _ (conj _ (conj _ _)))).
  - intros Ha. now rewrite Hg, geo_of_reply_no_address.
  - intros Ha Hcc. now rewrite Hg, geo_of_reply_no_code, Hname.
  - intros Ha s Hcc Hs. now rewrite Hg, (geo_of_reply_code env data s), Hname.
  - intros Ha Hcc Hs. now rewrite Hg, geo_of_reply_throws.
  - rewrite Hg. destruct (geo_of_reply env data); cbn [fst snd store trace];
      rewrite fetch_count_app; count_tail; (split; [reflexivity|lia]).
Qed.

Lemma open_sea_fallback_witness :
  fst (getCountryFromServerLatLng (env_of (Ok (reply code_only_address)))
         paris_lat paris_lng empty_world)
  = Ok (mkGeo (JStr "the open sea") "FR")
  /\ fst (getCountryFromServerLatLng (env_of (Ok (reply JNull)))
            paris_lat paris_lng empty_world)
     = Ok the_open_sea.
Proof.
  split.
  - destruct (open_sea_fallback (env_of (Ok (reply code_only_address)))
                paris_lat paris_lng empty_world (reply code_only_address)
                code_only_address eq_refl eq_refl eq_refl eq_refl
                (or_intror eq_refl)) as (_ & _ & H & _).
    apply (H eq_refl "fr" eq_refl). discriminate.
  - destruct (open_sea_fallback (env_of (Ok (reply JNull)))
                paris_lat paris_lng empty_world (reply JNull) JNull
                eq_refl eq_refl eq_refl eq_refl (or_introl eq_refl)) as (H & _).
    exact (H eq_refl).
Defined.

(** Claim C4, as stated, fails: with a country and a [country_code] that
    is a number, upper-casing throws and the helper returns
    [{an unknown location, XX}]; the country's name is not kept. *)
Lemma numeric_code_drops_country :
  prop_of (prop_of numeric_code "address") "country" = JStr "France" /\
  prop_of (prop_of numeric_code "address") "country_code" = JNum (33 # 1) /\
  fst (getCountryFromServerLatLng (env_of (Ok (reply numeric_code)))
         paris_lat paris_lng empty_world)
    = Ok an_unknown_location /\
  (forall code,
      fst (getCountryFromServerLatLng (env_of (Ok (reply numeric_code)))
             paris_lat paris_lng empty_world)
      <> Ok (mkGeo (JStr "France") code)).
Proof.
  repeat split. intros code. vm_compute. discriminate.
Qed.

(** Claim C4 (amended). When the geocoder's reply carries an address with
    a non-empty (truthy) country, the outcome follows the address's
    [country_code]: a non-empty string, the helper returns the country
    verbatim with that string in upper case; absent or falsy, it returns
    the country verbatim with ["XX"]; a truthy value that is no string,
    upper-casing throws and it returns [{an unknown location, XX}]. A
    request with valid fields whose document the store accepts is stored
    with the returned code and, the returned name being a string, with
    that name (France / fr is stored as France / FR). *)
Theorem country_resolved env lat lng w r data :
  url_ok lat lng = true ->
  fetch_outcome env lat lng = Ok r -> ok r = true -> json r = Ok data ->
  truthy data = true ->
  truthy (prop_of data "address") = true ->
  truthy (prop_of (prop_of data "address") "country") = true ->
  (forall s, prop_of (prop_of data "address") "country_code" = JStr s -> s <> "" ->
   fst (getCountryFromServerLatLng env lat lng w)
   = Ok (mkGeo (prop_of (prop_of data "address") "country") (upper_case env s)))
  /\ (truthy (prop_of (prop_of data "address") "country_code") = false ->
      fst (getCountryFromServerLatLng env lat lng w)
      = Ok (mkGeo (prop_of (prop_of data "address") "country") "XX"))
  /\ (truthy (prop_of (prop_of data "address") "country_code") = true ->
      (forall s, prop_of (prop_of data "address") "country_code" <> JStr s) ->
      fst (getCountryFromServerLatLng env lat lng w) = Ok an_unknown_location)
  /\ forall b g h,
      body_parsed b -> fails_validation b = false ->
      prop_of b "latitude" = lat -> prop_of b "longitude" = lng ->
      fst (getCountryFromServerLatLng env lat lng w) = Ok g ->
      persist env (heart_of b g (now w + fetch_elapsed env)) = Ok h ->
      exists w',
        post_hearts env b w = (Ok (json_response 201 (RHeart h)), w')
        /\ store w' = store w ++ [h]
        /\ countryCode h = geo_countryCode g
        /\ (forall name, geo_countryName g = JStr name -> countryName h = JStr name).
Proof.
  intros Hurl Hf Hok Hjs Hd Ha Hc.
  assert (Haddr : address_of data = prop_of data "address")
    by (unfold address_of; now rewrite Hd).
  assert (Hname : js_or (prop_of (address_of data) "country") (JStr "the open sea")
                  = prop_of (prop_of data "address") "country")
    by (rewrite Haddr; unfold js_or; now rewrite Hc).
  pose proof (getCountry_reads_reply env lat lng w r data Hurl Hf Hok Hjs) as Hg.
  rewrite <- Haddr in *.
  refine (conj _ (conj _ (conj _ _))).
  - intros s Hcc Hs. rewrite Hg, (geo_of_reply_code env data s) by assumption.
    cbn [fst]. now rewrite Hname.
  - intros Hcc. rewrite Hg, geo_of_reply_no_code by assumption.
    cbn [fst]. now rewrite Hname.
  - intros Hcc Hs. now rewrite Hg, geo_of_reply_throws.
  - intros b g h Hb Hv <- <- Hfst Hp.
    destruct (getCountry_called env _ _ w Hurl) as (g' & logs & Hg' & _).
    rewrite Hg' in Hfst. cbn [fst] in Hfst. injection Hfst as ->.
    rewrite (post_hearts_passes env b w _ _ (body_parsed_not_nullish b Hb) Hv Hg').
    cbn [now store]. rewrite Hp. eexists. split; [reflexivity|].
    cbn [store]. split; [reflexivity|].
    apply persist_Ok in Hp as (Hnew & _).
    apply new_Heart_Some in Hnew as (_ & _ & _ & _ & Hn & Hcode & _).
    split; [exact Hcode|].
    intros name E. cbn [countryName heart_of] in Hn. rewrite E in Hn.
    eapply cast_String_string. exact Hn.
Qed.

Lemma country_resolved_witness :
  exists w',
    post_hearts (env_of (Ok (reply france))) red_heart_in_paris empty_world =
      (Ok (json_response 201
             (RHeart (mkHeart (JStr "redHeart") paris_lat paris_lng (JStr "bonjour")
                        (JStr "France") "FR" 5))), w')
    /\ store w' = [mkHeart (JStr "redHeart") paris_lat paris_lng (JStr "bonjour")
                     (JStr "France") "FR" 5].
Proof.
  destruct (country_resolved (env_of (Ok (reply france))) paris_lat paris_lng
              empty_world (reply france) france
              eq_refl eq_refl eq_refl eq_refl eq_refl eq_refl eq_refl)
    as (Hcode & _ & _ & H).
  assert (Hfr : "fr" <> "") by discriminate.
  destruct (H red_heart_in_paris _ _ I eq_refl eq_refl eq_refl
              (Hcode "fr" eq_refl Hfr) eq_refl)
    as (w' & Hpost & Hstore & _).
  exists w'. split; [exact Hpost|exact Hstore].
Defined.

(** ** The request router *)

(** Claim C5. A creation request that lacks [type], [latitude] or
    [longitude] is answered exactly 400 with the fixed error body; the
    world is left as it was: nothing is persisted and the geocoder is not
    asked. *)
Theorem missing_field_rejected env b w :
  body_parsed b ->
  prop_of b "type" = JUndefined \/ prop_of b "latitude" = JUndefined
  \/ prop_of b "longitude" = JUndefined ->
  forall resp w',
    post_hearts env b w = (resp, w') ->
    resp = Ok (json_response 400
                 (RError "Missing required fields: type, latitude, longitude"))
    /\ store w' = store w
    /\ fetch_count (trace w') = fetch_count (trace w)
    /\ w' = w.
Proof.
  intros Hb Hmiss resp w' Hpost.
  assert (Hv : fails_validation b = true).
  { unfold fails_validation.
    destruct Hmiss as [ -> | [ -> | -> ] ]; cbn; rewrite ?orb_true_r; reflexivity. }
  rewrite (post_hearts_rejects env b w (body_parsed_not_nullish b Hb) Hv) in Hpost.
  injection Hpost as <- <-. auto.
Qed.

Lemma missing_field_rejected_witness :
  fst (post_hearts (env_of (Ok (reply france))) no_latitude empty_world) =
    Ok (json_response 400
          (RError "Missing required fields: type, latitude, longitude"))
  /\ snd (post_hearts (env_of (Ok (reply france))) no_latitude empty_world) =
     empty_world.
Proof.
  destruct (missing_field_rejected (env_of (Ok (reply france))) no_latitude
              empty_world I (or_intror (or_introl eq_refl))
              (fst (post_hearts (env_of (Ok (reply france))) no_latitude empty_world))
              (snd (post_hearts (env_of (Ok (reply france))) no_latitude empty_world))
              eq_refl)
    as (H1 & _ & _ & H4).
  split; assumption.
Defined.

(** Claim C6, as stated, fails: a request whose [type] is the empty string,
    with both coordinates defined, is rejected with 400. *)
Lemma empty_type_is_rejected :
  prop_of empty_type "type" = JStr "" /\
  is_undefined (prop_of empty_type "latitude") = false /\
  is_undefined (prop_of empty_type "longitude") = false /\
  post_hearts (env_of (Ok (reply france))) empty_type empty_world =
    (Ok (json_response 400 (RError missing_fields)), empty_world).
Proof. repeat split. Qed.

(** Claim C6 (amended). Validation tests [latitude] and [longitude] for
    definedness only (no range or number test) and [type] for truthiness:
    the request is rejected with 400 exactly when a coordinate is
    [undefined] or [type] is falsy, so an empty-string [type] is rejected
    while any defined coordinates pass. *)
Theorem validation_checks_truthy_type env b w :
  body_parsed b ->
  (fst (post_hearts env b w) = Ok (json_response 400 (RError missing_fields))
   <-> (prop_of b "latitude" = JUndefined \/ prop_of b "longitude" = JUndefined
        \/ truthy (prop_of b "type") = false))
  /\ (prop_of b "type" = JStr "" ->
      fst (post_hearts env b w) = Ok (json_response 400 (RError missing_fields))).
Proof.
  intros Hb.
  assert (Hiff : fails_validation b = true <->
                 (prop_of b "latitude" = JUndefined \/ prop_of b "longitude" = JUndefined
                  \/ truthy (prop_of b "type") = false)).
  { unfold fails_validation. rewrite !orb_true_iff, negb_true_iff.
    assert (Hu : forall v, is_undefined v = true <-> v = JUndefined)
      by (intros []; cbn; split; congruence).
    rewrite !Hu. tauto. }
  assert (Hmain : fst (post_hearts env b w) = Ok (json_response 400 (RError missing_fields))
                  <-> fails_validation b = true).
  { destruct (fails_validation b) eqn:Hv.
    - rewrite post_hearts_rejects by auto using body_parsed_not_nullish. tauto.
    - destruct (getCountry_returns env (prop_of b "latitude") (prop_of b "longitude") w)
        as (g & w1 & Hg & _).
      rewrite (post_hearts_passes env b w g w1 (body_parsed_not_nullish b Hb) Hv Hg).
      destruct (persist env _); cbn; split; discriminate. }
  split; [rewrite Hmain; exact Hiff|].
  intros Hty. apply Hmain, Hiff. right; right. rewrite Hty. reflexivity.
Qed.

Lemma validation_checks_truthy_type_witness :
  fst (post_hearts (env_of (Ok (reply france))) empty_type empty_world)
    = Ok (json_response 400 (RError missing_fields)).
Proof.
  apply (validation_checks_truthy_type (env_of (Ok (reply france))) empty_type
           empty_world I).
  reflexivity.
Defined.

(** Claim C7. Listing answers 200 with all persisted markers ordered by
    timestamp, newest first; after a run of requests started on an empty
    collection it returns exactly as many records as creations were
    answered 201, with non-increasing timestamps; when the store fails it
    answers 500 with [{error: "Failed to fetch hearts"}]. *)
Theorem list_newest_first rs env :
  match find_outcome env with
  | None =>
      exists hs,
        fst (get_hearts env (snd (serve_all rs empty_world)))
          = Ok (json_response 200 (RHearts hs))
        /\ hs ≡ₚ store (snd (serve_all rs empty_world))
        /\ length hs = created_count (fst (serve_all rs empty_world))
        /\ StronglySorted (fun h1 h2 => timestamp h2 <= timestamp h1) hs
  | Some _ =>
      fst (get_hearts env (snd (serve_all rs empty_world)))
        = Ok (json_response 500 (RError "Failed to fetch hearts"))
  end.
Proof.
  destruct (serve_all_outcome rs empty_world) as (Hst & Hlen & _).
  cbn [store empty_world app] in Hst.
  unfold get_hearts. run.
  destruct (snd (serve_all rs empty_world)) as [st0 t0 tr0] eqn:Hw.
  cbn [store] in Hst. subst st0. run.
  destruct (find_outcome env); [reflexivity|].
  eexists. split; [reflexivity|].
  split; [apply merge_sort_Permutation|].
  split.
  - rewrite merge_sort_Permutation. exact Hlen.
  - apply (StronglySorted_merge_sort newer_first).
Qed.

(** Claim C8, as stated, fails: the helper upper-cases whatever string the
    geocoder sends, so [country_code = "fra"] is persisted as ["FRA"],
    which is neither two characters long nor ["XX"]. *)
Lemma three_letter_code_persisted :
  exists h,
    store (snd (serve_all [Create 0 (env_of (Ok (reply three_letter_code)))
                             red_heart_in_paris] empty_world)) = [h]
    /\ countryCode h = "FRA"
    /\ String.length (countryCode h) <> 2%nat
    /\ countryCode h <> "XX".
Proof.
  eexists. split; [vm_compute; reflexivity|]. cbn. repeat split; discriminate.
Qed.

(** Claim C8 (amended). Invariant over all persisted markers: [countryCode]
    is either the sentinel ["XX"] or the result of upper-casing a non-empty
    string that the geocoder returned as the [country_code] of the address
    in its successful reply to the call made for one of the creation
    requests; its length is not constrained. *)
Theorem country_code_invariant rs :
  Forall (fun h =>
            countryCode h = "XX"
            \/ exists t env b r data s,
                In (Create t env b) rs
                /\ url_ok (prop_of b "latitude") (prop_of b "longitude") = true
                /\ fetch_outcome env (prop_of b "latitude") (prop_of b "longitude")
                   = Ok r
                /\ ok r = true /\ json r = Ok data
                /\ prop_of (address_of data) "country_code" = JStr s
                /\ s <> ""
                /\ countryCode h = upper_case env s)
         (store (snd (serve_all rs empty_world))).
Proof.
  destruct (serve_all_outcome rs empty_world) as (-> & _ & Hck & _).
  cbn [store empty_world app].
  eapply Forall_impl; [exact Hck|].
  intros h [_ [Hx|(t & env & b & Hin & r & data & s & H)]]; [now left|].
  right. exists t, env, b, r, data, s. tauto.
Qed.

(** Claim C9. For a valid creation request whose document the store
    accepts, the answer is 201 and the stored timestamp is the server's
    clock read after the helper returned, never a value of the client:
    adding a [timestamp] field to the body changes neither the answer nor
    the stored record (same clock, same enrichment result), and, the clock
    not running backwards while the geocoder is awaited, the stored
    timestamp is at least the time at which the request was received. *)
Theorem timestamp_server_assigned env props v w g w1 h :
  0 <= fetch_elapsed env ->
  fails_validation (JObj props) = false ->
  getCountryFromServerLatLng env (prop_of (JObj props) "latitude")
    (prop_of (JObj props) "longitude") w = (Ok g, w1) ->
  persist env (heart_of (JObj props) g (now w1)) = Ok h ->
  post_hearts env (JObj props) w
    = (Ok (json_response 201 (RHeart h)),
       mkWorld (store w ++ [h]) (now w1)
               (trace w1 ++ [EvSave (heart_of (JObj props) g (now w1))]))
  /\ post_hearts env (JObj (<["timestamp" := v]> props)) w
     = post_hearts env (JObj props) w
  /\ timestamp h = now w1
  /\ now w <= timestamp h.
Proof.
  intros Hel Hv Hg Hp.
  destruct (getCountry_returns env (prop_of (JObj props) "latitude")
              (prop_of (JObj props) "longitude") w)
    as (g' & w1' & Hg' & Hst & Hnow & _).
  rewrite Hg in Hg'. injection Hg' as <- <-.
  assert (Hts : timestamp h = now w1).
  { apply persist_Ok in Hp as (Hnew & _).
    now apply new_Heart_Some in Hnew as (_ & _ & _ & _ & _ & _ & ->). }
  refine (conj _ (conj _ (conj Hts _))).
  - rewrite (post_hearts_passes env (JObj props) w g w1 eq_refl Hv Hg), Hp, Hst.
    reflexivity.
  - apply post_hearts_ext; try reflexivity; cbn [prop_of];
      rewrite lookup_insert_ne by discriminate; reflexivity.
  - rewrite Hts, Hnow. unfold call_elapsed. destruct (url_ok _ _); lia.
Qed.

Lemma timestamp_server_assigned_witness :
  post_hearts (env_of (Ok (reply france)))
    (JObj (<["timestamp" := JNum (0 # 1)]> bare_heart)) (mkWorld [] 1000 [])
  = (Ok (json_response 201
           (RHeart (mkHeart (JStr "redHeart") paris_lat paris_lng (JStr "")
                      (JStr "France") "FR" 1005))),
     mkWorld [mkHeart (JStr "redHeart") paris_lat paris_lng (JStr "")
                (JStr "France") "FR" 1005] 1005
       [EvFetch paris_lat paris_lng;
        EvSave (mkHeart (JStr "redHeart") paris_lat paris_lng (JStr "")
                  (JStr "France") "FR" 1005)])
  /\ 1000 <= timestamp (mkHeart (JStr "redHeart") paris_lat paris_lng (JStr "")
                          (JStr "France") "FR" 1005).
Proof.
  assert (Hel : 0 <= fetch_elapsed (env_of (Ok (reply france)))) by (cbn; lia).
  destruct (timestamp_server_assigned (env_of (Ok (reply france))) bare_heart
              (JNum (0 # 1)) (mkWorld [] 1000 []) _ _ _ Hel eq_refl eq_refl eq_refl)
    as (Hpost & Hsame & _ & Hle).
  split; [|exact Hle].
  rewrite Hsame. exact Hpost.
Defined.

(** Claim C10. Only a strictly [undefined] coordinate is rejected: with a
    truthy [type], a [latitude] or [longitude] that is [null] or any other
    JSON value passes validation, the helper is called with it (and the
    geocoder asked with it, when it can be written into the URL) and the
    write is attempted with it, so the answer is 201 or 500 and never 400;
    a falsy [message] reaches the store as the empty string. *)
Theorem loose_values_pass_validation env b w :
  body_parsed b ->
  truthy (prop_of b "type") = true ->
  prop_of b "latitude" <> JUndefined ->
  prop_of b "longitude" <> JUndefined ->
  exists g w1 resp w',
    getCountryFromServerLatLng env (prop_of b "latitude") (prop_of b "longitude") w
      = (Ok g, w1)
    /\ post_hearts env b w = (Ok resp, w')
    /\ (http_status resp = 201 \/ http_status resp = 500)
    /\ (exists tail,
           trace w' = trace w1 ++ EvSave (heart_of b g (now w1)) :: tail)
    /\ (url_ok (prop_of b "latitude") (prop_of b "longitude") = true ->
        In (EvFetch (prop_of b "latitude") (prop_of b "longitude")) (trace w'))
    /\ latitude (heart_of b g (now w1)) = prop_of b "latitude"
    /\ longitude (heart_of b g (now w1)) = prop_of b "longitude"
    /\ (truthy (prop_of b "message") = false ->
        message (heart_of b g (now w1)) = JStr "")
    /\ (forall h,
           persist env (heart_of b g (now w1)) = Ok h ->
           resp = json_response 201 (RHeart h)
           /\ store w' = store w ++ [h]
           /\ (truthy (prop_of b "message") = false -> message h = JStr "")).
Proof.
  intros Hb Hty Hlat Hlng.
  assert (Hv : fails_validation b = false).
  { unfold fails_validation. rewrite Hty.
    destruct (prop_of b "latitude"), (prop_of b "longitude");
      try reflexivity; congruence. }
  destruct (getCountry_returns env (prop_of b "latitude") (prop_of b "longitude") w)
    as (g & w1 & Hg & Hst & _ & _ & _ & Hin & _).
  assert (Hmsg : truthy (prop_of b "message") = false ->
                 message (heart_of b g (now w1)) = JStr "").
  { intros Hm. cbn. unfold js_or. now rewrite Hm. }
  exists g, w1.
  rewrite (post_hearts_passes env b w g w1 (body_parsed_not_nullish b Hb) Hv Hg).
  destruct (persist env (heart_of b g (now w1))) as [h|e] eqn:Hp;
    eexists _, _; (split; [exact Hg|]); (split; [reflexivity|]);
    cbn [http_status trace store].
  - split; [now left|]. split; [eauto|].
    split; [intros Hurl; apply in_or_app; left; auto|].
    split; [reflexivity|]. split; [reflexivity|]. split; [exact Hmsg|].
    intros h' E. injection E as <-. rewrite Hst. repeat split.
    intros Hm. apply persist_Ok in Hp as (Hnew & _).
    apply new_Heart_Some in Hnew as (_ & _ & _ & Hc & _).
    rewrite (Hmsg Hm) in Hc. eapply cast_String_string. exact Hc.
  - split; [now right|]. split; [eauto|].
    split; [intros Hurl; apply in_or_app; left; auto|].
    split; [reflexivity|]. split; [reflexivity|]. split; [exact Hmsg|].
    intros h E. discriminate E.
Qed.

Lemma loose_values_pass_validation_witness :
  (exists w',
      post_hearts (env_of (Ok (reply france))) null_island empty_world
      = (Ok (json_response 500 (RError "Failed to create heart")), w')
      /\ In (EvFetch JNull (JStr "east")) (trace w')
      /\ In (EvSave (mkHeart (JStr "redHeart") JNull (JStr "east") (JStr "")
                       (JStr "France") "FR" 5)) (trace w'))
  /\ exists w',
      post_hearts (env_of (Ok (reply france))) silent_heart empty_world
      = (Ok (json_response 201
               (RHeart (mkHeart (JStr "silverHeart") paris_lat paris_lng (JStr "")
                          (JStr "France") "FR" 5))), w').
Proof.
  split.
  - destruct (loose_values_pass_validation (env_of (Ok (reply france))) null_island
                empty_world I eq_refl)
      as (g & w1 & resp & w' & Hg & Hpost & _ & (tail & Htr) & Hin & _);
      [discriminate | discriminate |].
    vm_compute in Hg. injection Hg as <- <-.
    exists w'. split.
    + rewrite Hpost. vm_compute in Hpost. now injection Hpost as <- _.
    + split; [exact (Hin eq_refl)|]. rewrite Htr. apply in_elt.
  - destruct (loose_values_pass_validation (env_of (Ok (reply france))) silent_heart
                empty_world I eq_refl)
      as (g & w1 & resp & w' & Hg & Hpost & _ & _ & _ & _ & _ & _ & Hsaved);
      [discriminate | discriminate |].
    vm_compute in Hg. injection Hg as <- <-.
    destruct (Hsaved _ eq_refl) as (-> & _). eauto.
Defined.

(** ** Further properties of the helper and the handlers *)

(** X10. Whatever the geocoder does, the helper returns normally. It asks
    the geocoder exactly once when both coordinates can be written into
    the URL and not at all otherwise, attempts no write and leaves the
    collection alone; the name it returns is truthy and the code is ["XX"]
    or the upper case of the non-empty [country_code] of the geocoder's
    successful reply. *)
Theorem helper_never_raises env lat lng w :
  exists g w1,
    getCountryFromServerLatLng env lat lng w = (Ok g, w1)
    /\ store w1 = store w
    /\ now w1 = now w + (if url_ok lat lng then fetch_elapsed env else 0)
    /\ fetch_count (trace w1)
       = (fetch_count (trace w) + (if url_ok lat lng then 1 else 0))%nat
    /\ save_count (trace w1) = save_count (trace w)
    /\ truthy (geo_countryName g) = true
    /\ (geo_countryCode g = "XX"
        \/ exists r data s,
            url_ok lat lng = true
            /\ fetch_outcome env lat lng = Ok r /\ ok r = true /\ json r = Ok data
            /\ prop_of (address_of data) "country_code" = JStr s
            /\ s <> ""
            /\ geo_countryCode g = upper_case env s).
Proof.
  destruct (getCountry_returns env lat lng w)
    as (g & w1 & Hg & Hst & Hnow & Hf & Hs & _ & _ & Hname & Hcode).
  exists g, w1. repeat split; assumption.
Qed.

(** X1. The create handler never throws: every request is answered 201,
    400 or 500. A 201 answer carries the new record, which the store
    accepted and which is the one record appended to the collection; a 400
    answer has the fixed body and leaves everything untouched (no log line,
    no geocoder call, no write); a 500 answer has the fixed body, leaves
    the collection untouched and is preceded by a log line carrying the
    error. *)
Theorem create_answers_201_400_500 env b w :
  exists resp w',
    post_hearts env b w = (Ok resp, w')
    /\ ((exists h,
            resp = json_response 201 (RHeart h)
            /\ store w' = store w ++ [h]
            /\ save_outcome env h = None)
        \/ (resp = json_response 400
                     (RError "Missing required fields: type, latitude, longitude")
            /\ w' = w)
        \/ (resp = json_response 500 (RError "Failed to create heart")
            /\ store w' = store w
            /\ exists e,
                last (trace w')
                = Some (EvConsoleError [LStr "Error creating heart:"; LErr e]))).
Proof.
  destruct (post_hearts_outcome env b w) as (resp & w' & Hpost & Hcase).
  exists resp, w'. split; [exact Hpost|].
  destruct Hcase as [(h & g & w1 & Hr & Hst & _ & _ & _ & Hp & _)
                    |[(Hr & Hw & _)|(Hr & Hst & He & _)]].
  - left. exists h. apply persist_Ok in Hp as (_ & _ & Hs). auto.
  - right; left. auto.
  - right; right. auto.
Qed.

(** X2. When [save()] rejects the document (a cast or a validator failed,
    the connection is lost), the answer is 500 with the fixed body: the
    error goes to the log right after the write attempt and not to the
    client, and the collection is unchanged. *)
Theorem store_failure_answers_500 env b w :
  nullish b = false -> fails_validation b = false ->
  exists g w1,
    getCountryFromServerLatLng env (prop_of b "latitude") (prop_of b "longitude") w
      = (Ok g, w1)
    /\ forall e,
        persist env (heart_of b g (now w1)) = Throw e ->
        post_hearts env b w =
          (Ok (json_response 500 (RError "Failed to create heart")),
           mkWorld (store w) (now w1)
             (trace w1 ++ [EvSave (heart_of b g (now w1));
                           EvConsoleError [LStr "Error creating heart:"; LErr e]])).
Proof.
  intros Hb Hv.
  destruct (getCountry_returns env (prop_of b "latitude") (prop_of b "longitude") w)
    as (g & w1 & Hg & Hst & _).
  exists g, w1. split; [exact Hg|].
  intros e He. rewrite (post_hearts_passes env b w g w1 Hb Hv Hg), He, Hst.
  reflexivity.
Qed.

Lemma store_failure_answers_500_witness :
  fst (post_hearts env_store_down red_heart_in_paris empty_world)
    = Ok (json_response 500 (RError "Failed to create heart"))
  /\ store (snd (post_hearts env_store_down red_heart_in_paris empty_world)) = []
  /\ last (trace (snd (post_hearts env_store_down red_heart_in_paris empty_world)))
     = Some (EvConsoleError [LStr "Error creating heart:";
                             LErr (Rejected "MongoNetworkError")]).
Proof.
  destruct (store_failure_answers_500 env_store_down red_heart_in_paris empty_world
              eq_refl eq_refl) as (g & w1 & Hg & H).
  vm_compute in Hg. injection Hg as <- <-.
  rewrite (H (Rejected "MongoNetworkError") eq_refl). repeat split.
Defined.

(** X3. A request whose body is [undefined] or [null] (nothing was parsed)
    cannot be destructured: the TypeError is caught by the handler, logged,
    and answered with 500, not 400; the geocoder is not asked and nothing
    is written. *)
Theorem unparsed_body_answers_500 env b w :
  nullish b = true ->
  exists w',
    post_hearts env b w
      = (Ok (json_response 500 (RError "Failed to create heart")), w')
    /\ store w' = store w
    /\ fetch_count (trace w') = fetch_count (trace w)
    /\ save_count (trace w') = save_count (trace w)
    /\ exists msg,
        last (trace w')
        = Some (EvConsoleError [LStr "Error creating heart:"; LErr (JsTypeError msg)]).
Proof.
  intros Hb. rewrite post_hearts_nullish by assumption. eexists. split; [reflexivity|].
  cbn [store trace]. rewrite fetch_count_app, save_count_app. count_tail.
  repeat split; try lia. eexists. apply last_snoc.
Qed.

Lemma unparsed_body_answers_500_witness :
  fst (post_hearts (env_of (Ok (reply france))) JUndefined empty_world)
    = Ok (json_response 500 (RError "Failed to create heart")).
Proof.
  destruct (unparsed_body_answers_500 (env_of (Ok (reply france))) JUndefined
              empty_world eq_refl) as (w' & Hpost & _).
  rewrite Hpost. reflexivity.
Defined.

(** X4. Over any run of requests no handler throws, every request gets one
    answer, and the collection only grows at its end: afterwards it is the
    collection as it was, followed by the records of the 201 answers in
    the order of the answers. Nothing stored is ever changed or removed. *)
Theorem collection_is_append_only rs w :
  store (snd (serve_all rs w)) = store w ++ created_hearts (fst (serve_all rs w))
  /\ length (created_hearts (fst (serve_all rs w)))
     = created_count (fst (serve_all rs w))
  /\ Forall (fun r => exists resp, r = Ok resp) (fst (serve_all rs w))
  /\ length (fst (serve_all rs w)) = length rs.
Proof.
  destruct (serve_all_outcome rs w) as (Hst & Hlen & _ & Hok & Hn & _).
  repeat split; assumption.
Qed.

(** X5. Listing only reads: it never throws, answers 200 or 500, and
    leaves the collection and the clock as they were without asking the
    geocoder or writing. On success the body is the collection sorted
    newest first (the empty array for an empty collection); on failure the
    body is the fixed error and the store's error goes to the log. *)
Theorem list_is_read_only env w :
  exists resp w',
    get_hearts env w = (Ok resp, w')
    /\ store w' = store w
    /\ now w' = now w
    /\ fetch_count (trace w') = fetch_count (trace w)
    /\ save_count (trace w') = save_count (trace w)
    /\ match find_outcome env with
       | None =>
           resp = json_response 200 (RHearts (merge_sort newer_first (store w)))
           /\ (store w = [] -> resp = json_response 200 (RHearts []))
       | Some e =>
           resp = json_response 500 (RError "Failed to fetch hearts")
           /\ last (trace w')
              = Some (EvConsoleError [LStr "Error fetching hearts:"; LErr e])
       end.
Proof.
  destruct w as [st0 t0 tr0]. unfold get_hearts. run.
  destruct (find_outcome env) as [e|]; eexists _, _; (split; [reflexivity|]);
    cbn [store now trace]; rewrite ?fetch_count_app, ?save_count_app; count_tail;
    repeat split; try lia.
  - apply last_snoc.
  - intros ->. reflexivity.
Qed.

(** X6. Round trip: after a creation answered 201, a successful listing
    returns the new record together with every record stored before. The
    record has the shape of the schema (a [type] of the enumeration,
    numeric coordinates, a string [message]); a request field that already
    has the type of its path comes back unchanged (a string [type], a
    numeric [latitude] or [longitude], a non-empty string [message]), and
    a falsy [message] comes back as the empty string. *)
Theorem created_record_is_listed env env' b w h w' :
  post_hearts env b w = (Ok (json_response 201 (RHeart h)), w') ->
  find_outcome env' = None ->
  exists hs w'',
    get_hearts env' w' = (Ok (json_response 200 (RHearts hs)), w'')
    /\ In h hs
    /\ (forall x, In x (store w) -> In x hs)
    /\ length hs = S (length (store w))
    /\ stored_shape h
    /\ (forall s, prop_of b "type" = JStr s -> type h = JStr s)
    /\ (forall q, prop_of b "latitude" = JNum q -> latitude h = JNum q)
    /\ (forall q, prop_of b "longitude" = JNum q -> longitude h = JNum q)
    /\ (forall m, prop_of b "message" = JStr m -> m <> "" -> message h = JStr m)
    /\ (truthy (prop_of b "message") = false -> message h = JStr "").
Proof.
  intros Hpost Hfind.
  destruct (post_hearts_outcome env b w) as (resp & w1 & Hpost' & Hcase).
  rewrite Hpost in Hpost'. injection Hpost' as <- <-.
  destruct Hcase as [(h' & g & w0 & Hr & Hst & _ & _ & Hg & Hp & _)
                    |[(Hr & _)|(Hr & _)]]; try discriminate Hr.
  injection Hr as <-.
  destruct w' as [st1 t1 tr1]. cbn [store] in Hst. subst st1.
  unfold get_hearts. run. rewrite Hfind.
  eexists _, _. split; [reflexivity|].
  assert (Hperm : merge_sort newer_first (store w ++ [h]) ≡ₚ store w ++ [h])
    by apply merge_sort_Permutation.
  split; [eapply Permutation_in; [symmetry; exact Hperm|apply in_elt]|].
  split; [intros x Hx; eapply Permutation_in;
          [symmetry; exact Hperm|apply in_or_app; now left]|].
  split; [rewrite Hperm, length_app; cbn; lia|].
  destruct (getCountry_returns env (prop_of b "latitude") (prop_of b "longitude") w)
    as (g' & w0' & Hg' & _ & _ & _ & _ & _ & _ & Hname & _).
  rewrite Hg in Hg'. injection Hg' as <- <-.
  destruct (heart_of_not_nullish b g (now w0) Hname) as [Hm Hn].
  destruct (persist_shape env _ h Hp Hm Hn) as (Hshape & _).
  split; [exact Hshape|].
  apply persist_Ok in Hp as (Hnew & _).
  apply new_Heart_Some in Hnew as (Ht & Hlat & Hlng & Hmsg & _).
  cbn [type latitude longitude message heart_of] in *.
  refine (conj _ (conj _ (conj _ (conj _ _)))).
  - intros s E. rewrite E in Ht. eapply cast_String_string, Ht.
  - intros q E. rewrite E in Hlat. eapply cast_Number_number, Hlat.
  - intros q E. rewrite E in Hlng. eapply cast_Number_number, Hlng.
  - intros m E Hne. rewrite E in Hmsg. unfold js_or in Hmsg.
    rewrite (proj2 (truthy_JStr m) Hne) in Hmsg. eapply cast_String_string, Hmsg.
  - intros E. unfold js_or in Hmsg. rewrite E in Hmsg.
    eapply cast_String_string, Hmsg.
Qed.

Lemma created_record_is_listed_witness :
  exists hs w'',
    get_hearts (env_of (Ok (reply france)))
      (snd (post_hearts (env_of (Ok (reply france))) red_heart_in_paris empty_world))
      = (Ok (json_response 200 (RHearts hs)), w'')
    /\ hs = [mkHeart (JStr "redHeart") paris_lat paris_lng (JStr "bonjour")
               (JStr "France") "FR" 5].
Proof.
  destruct (created_record_is_listed (env_of (Ok (reply france)))
              (env_of (Ok (reply france))) red_heart_in_paris empty_world
              _ _ eq_refl eq_refl) as (hs & w'' & Hget & _).
  exists hs, w''. split; [exact Hget|].
  vm_compute in Hget. now injection Hget as <- _.
Defined.

(** X7. Invariant of the collection: if every stored record has the shape
    of the schema (a [type] of the enumeration, numeric [latitude] and
    [longitude], strings for [message] and [countryName]), then the same
    holds after any run of requests: the handler stores nothing that did
    not pass the casts and the validators. *)
Theorem stored_shape_is_kept rs w :
  Forall stored_shape (store w) ->
  Forall stored_shape (store (snd (serve_all rs w))).
Proof.
  intros Hw. destruct (serve_all_outcome rs w) as (-> & _ & Hck & _).
  apply Forall_app. split; [exact Hw|].
  eapply Forall_impl; [exact Hck|]. now intros h [H _].
Qed.

Lemma stored_shape_is_kept_witness :
  Forall stored_shape
    (store (snd (serve_all [Create 10 (env_of (Ok (reply JNull))) null_island;
                            List (env_of (Ok (reply JNull)));
                            Create 20 (env_of (Ok (reply france))) red_heart_in_paris]
                   (mkWorld [old_heart] 0 []))))
  /\ length (store (snd (serve_all
                [Create 10 (env_of (Ok (reply JNull))) null_island;
                 List (env_of (Ok (reply JNull)));
                 Create 20 (env_of (Ok (reply france))) red_heart_in_paris]
                (mkWorld [old_heart] 0 [])))) = 2%nat.
Proof.
  split; [|reflexivity].
  apply (stored_shape_is_kept _ (mkWorld [old_heart] 0 [])).
  constructor; [|constructor].
  unfold stored_shape, old_heart; cbn.
  repeat split; eauto.
Defined.

(** X8. The geocoder is asked only on the way to a write, at most once for
    each: over any run the number of geocoder calls is at most the number
    of writes attempted on the store, which is at least the number of 201
    answers and at most the number of creation requests. Listings and
    rejected creations reach neither the geocoder nor the store. *)
Theorem geocoder_asked_at_most_once_per_write rs w :
  exists calls writes,
    fetch_count (trace (snd (serve_all rs w))) = (fetch_count (trace w) + calls)%nat
    /\ save_count (trace (snd (serve_all rs w))) = (save_count (trace w) + writes)%nat
    /\ (calls <= writes)%nat
    /\ (created_count (fst (serve_all rs w)) <= writes)%nat
    /\ (writes <= create_count rs)%nat.
Proof.
  destruct (serve_all_outcome rs w) as (_ & _ & _ & _ & _ & H). exact H.
Qed.

(** X9. Create, then list: when the new record's timestamp is later than
    that of every record stored before, a successful listing returns it
    first, followed by the records stored before. *)
Theorem newest_marker_listed_first env env' b w h w' :
  post_hearts env b w = (Ok (json_response 201 (RHeart h)), w') ->
  (forall x, In x (store w) -> timestamp x < timestamp h) ->
  find_outcome env' = None ->
  exists rest w'',
    get_hearts env' w' = (Ok (json_response 200 (RHearts (h :: rest))), w'')
    /\ rest ≡ₚ store w.
Proof.
  intros Hpost Hnew Hfind.
  destruct (post_hearts_outcome env b w) as (resp & w1 & Hpost' & Hcase).
  rewrite Hpost in Hpost'. injection Hpost' as <- <-.
  destruct Hcase as [(h' & g & w0 & Hr & Hst & _)|[(Hr & _)|(Hr & _)]];
    try discriminate Hr.
  injection Hr as <-.
  destruct w' as [st1 t1 tr1]. cbn [store] in Hst. subst st1.
  unfold get_hearts. run. rewrite Hfind.
  assert (Hperm : merge_sort newer_first (store w ++ [h]) ≡ₚ h :: store w).
  { rewrite merge_sort_Permutation. symmetry. apply Permutation_cons_append. }
  assert (Hsorted : StronglySorted newer_first (merge_sort newer_first (store w ++ [h])))
    by apply (StronglySorted_merge_sort newer_first).
  destruct (merge_sort newer_first (store w ++ [h])) as [|x rest] eqn:Hs.
  { apply Permutation_nil_l in Hperm. discriminate Hperm. }
  assert (Hx : x = h).
  { assert (Hxin : In x (h :: store w))
      by (eapply Permutation_in; [exact Hperm|now left]).
    destruct Hxin as [->|Hxin]; [reflexivity|].
    assert (Hhin : In h (x :: rest))
      by (eapply Permutation_in; [symmetry; exact Hperm|now left]).
    destruct Hhin as [->|Hhin]; [reflexivity|].
    apply StronglySorted_inv in Hsorted as [_ Hall].
    rewrite List.Forall_forall in Hall. specialize (Hall h Hhin).
    specialize (Hnew x Hxin). unfold newer_first in Hall. lia. }
  subst x. eexists _, _. split; [reflexivity|].
  now apply Permutation_cons_inv in Hperm.
Qed.

Lemma newest_marker_listed_first_witness :
  exists rest w'',
    get_hearts (env_of (Ok (reply france)))
      (snd (post_hearts (env_of (Ok (reply france))) red_heart_in_paris
              (mkWorld [old_heart] 100 [])))
      = (Ok (json_response 200
               (RHearts (mkHeart (JStr "redHeart") paris_lat paris_lng
                           (JStr "bonjour") (JStr "France") "FR" 105 :: rest))),
         w'')
    /\ rest ≡ₚ [old_heart].
Proof.
  apply (newest_marker_listed_first (env_of (Ok (reply france)))
           (env_of (Ok (reply france))) red_heart_in_paris
           (mkWorld [old_heart] 100 [])).
  - reflexivity.
  - intros x [<-|[]]. cbn. lia.
  - reflexivity.
Defined.

(** X11. Only [type], [latitude], [longitude] and [message] are read from
    the request: setting or removing any other field of the body
    ([countryName], [countryCode], an identifier, ...) changes neither the
    answer nor what is stored or logged. *)
Theorem unknown_fields_ignored env props k v w :
  k <> "type" -> k <> "latitude" -> k <> "longitude" -> k <> "message" ->
  post_hearts env (JObj (<[k := v]> props)) w = post_hearts env (JObj props) w
  /\ post_hearts env (JObj (delete k props)) w = post_hearts env (JObj props) w.
Proof.
  intros Ht Hlat Hlng Hm.
  split; apply post_hearts_ext; try reflexivity; cbn [prop_of];
    rewrite ?lookup_insert_ne, ?lookup_delete_ne by congruence; reflexivity.
Qed.

Lemma unknown_fields_ignored_witness :
  post_hearts (env_of (Ok (reply france)))
    (JObj (<["countryCode" := JStr "ZZ"]> bare_heart)) empty_world
  = post_hearts (env_of (Ok (reply france))) (JObj bare_heart) empty_world.
Proof.
  assert (H1 : "countryCode" <> "type") by discriminate.
  assert (H2 : "countryCode" <> "latitude") by discriminate.
  assert (H3 : "countryCode" <> "longitude") by discriminate.
  assert (H4 : "countryCode" <> "message") by discriminate.
  exact (proj1 (unknown_fields_ignored (env_of (Ok (reply france))) bare_heart
                  "countryCode" (JStr "ZZ") empty_world H1 H2 H3 H4)).
Defined.

(** X12. A coordinate that cannot be written into the URL (an object with
    an own [toString] property, or an array holding one) makes the
    template literal of line 44 throw before [fetch] is called: the helper
    logs the TypeError and returns [{an unknown location, XX}] without
    asking the geocoder and without letting time pass. *)
Theorem unprintable_coordinate_falls_back env lat lng w :
  to_string_ok lat = false \/ to_string_ok lng = false ->
  getCountryFromServerLatLng env lat lng w =
    (Ok an_unknown_location,
     mkWorld (store w) (now w)
       (trace w ++ [EvConsoleError
                      [LStr "Failed to get country from lat/lng (server-side):";
                       LErr (JsTypeError "Cannot convert object to primitive value")]]))
  /\ fetch_count
       (trace w ++ [EvConsoleError
                      [LStr "Failed to get country from lat/lng (server-side):";
                       LErr (JsTypeError "Cannot convert object to primitive value")]])
     = fetch_count (trace w).
Proof.
  intros H. split.
  - apply getCountry_no_url. unfold url_ok.
    destruct H as [-> | ->]; [reflexivity|apply andb_false_r].
  - rewrite fetch_count_app. count_tail. lia.
Qed.

Lemma unprintable_coordinate_falls_back_witness :
  fst (getCountryFromServerLatLng (env_of (Ok (reply france)))
         (JArr [JNull; unprintable]) paris_lng empty_world)
  = Ok an_unknown_location
  /\ fetch_count
       (trace (snd (getCountryFromServerLatLng (env_of (Ok (reply france)))
                      (JArr [JNull; unprintable]) paris_lng empty_world)))
     = 0%nat.
Proof.
  destruct (unprintable_coordinate_falls_back (env_of (Ok (reply france)))
              (JArr [JNull; unprintable]) paris_lng empty_world
              (or_introl eq_refl)) as [Hg Hcount].
  rewrite Hg. split; [reflexivity|exact Hcount].
Defined.
